(** * Verification of the weather / sentiment / vibe-note backend (main.py)

    The four request handlers of [main.py] are embedded as Rocq functions:
    [get_weather], [analyze_sentiment], [vibe_note] and [test_database].
    Python values are modelled as the interpreter has them: a [str] is a
    sequence of Unicode code points, a [float] is an IEEE 754 binary64
    number (Rocq's primitive floats), an [int] is an unbounded integer. *)

From Stdlib Require Import ZArith NArith List Bool Ascii String Lia.
From Stdlib Require Import PrimFloat SpecFloat FloatOps.
Import ListNotations.

Set Warnings "-inexact-float,-register-all".
Set Implicit Arguments.

(* ================================================================= *)
(** ** Python strings *)

Definition codepoint := N.
Definition str := list codepoint.

Open Scope N_scope.

(** A literal all of whose characters are ASCII. *)
Definition py (s : string) : str := map N_of_ascii (list_ascii_of_string s).

Fixpoint str_eqb (a b : str) : bool :=
  match a, b with
  | [], [] => true
  | x :: a', y :: b' => (x =? y) && str_eqb a' b'
  | _, _ => false
  end.

(** [str.isspace] for one character: the ASCII white space of
    [_Py_ascii_whitespace] and the code points of bidirectional class
    WS, B or S / category Zs. *)
Definition is_space (c : codepoint) : bool :=
  ((0x09 <=? c) && (c <=? 0x0D)) || ((0x1C <=? c) && (c <=? 0x20))
  || (c =? 0x85) || (c =? 0xA0) || (c =? 0x1680)
  || ((0x2000 <=? c) && (c <=? 0x200A))
  || (c =? 0x2028) || (c =? 0x2029) || (c =? 0x202F) || (c =? 0x205F)
  || (c =? 0x3000).

Fixpoint lstrip (s : str) : str :=
  match s with
  | c :: s' => if is_space c then lstrip s' else s
  | [] => []
  end.

Definition rstrip (s : str) : str := rev (lstrip (rev s)).

(** [s.strip()] *)
Definition strip (s : str) : str := rstrip (lstrip s).

Fixpoint startswith (w s : str) : bool :=
  match w, s with
  | [], _ => true
  | _ :: _, [] => false
  | a :: w', b :: s' => (a =? b) && startswith w' s'
  end.

(** [w in s] for two strings. *)
Fixpoint str_in (w s : str) : bool :=
  startswith w s ||
  match s with
  | [] => false
  | _ :: s' => str_in w s'
  end.

(** [s[:k]] for [k >= 0]. *)
Definition slice_to {A} (k : nat) (s : list A) : list A := firstn k s.

Definition is_ascii (c : codepoint) : bool := c <? 0x80.

Definition ascii_lower (c : codepoint) : codepoint :=
  if (0x41 <=? c) && (c <=? 0x5A) then c + 0x20 else c.

(** [str.lower] walks the string and maps every character through the
    Unicode lower-case table, which for capital sigma looks at the
    characters before and after it.  The ASCII part of the table is
    written out; the rest of it is the parameter [unicode_lower], called
    with the characters before (nearest first), the character and the
    characters after. *)
Definition UnicodeLower := str -> codepoint -> str -> str.

Fixpoint lower_from (ul : UnicodeLower) (before s : str) : str :=
  match s with
  | [] => []
  | c :: rest =>
      (if is_ascii c then [ascii_lower c] else ul before c rest)
      ++ lower_from ul (c :: before) rest
  end.

(* ================================================================= *)
(** ** Python numbers *)

Close Scope N_scope.
Open Scope float_scope.

(** [float(z)] of an [int], correctly rounded. *)
Definition float_of_int (z : Z) : float :=
  SF2Prim (binary_normalize prec emax z 0%Z false).

(** [min(a, b)] of two floats: [b] when [b < a], otherwise [a]. *)
Definition py_min (a b : float) : float := if ltb b a then b else a.

(** [a >= b] and [a <= b] on floats. *)
Definition float_ge (a b : float) : bool := leb b a.
Definition float_le (a b : float) : bool := leb a b.

(** [num / den] rounded to the nearest integer, ties to the even one
    ([0 <= num], [0 < den]). *)
Definition round_half_even (num den : Z) : Z :=
  let q := (num / den)%Z in
  let r := (num mod den)%Z in
  match (2 * r ?= den)%Z with
  | Lt => q
  | Gt => (q + 1)%Z
  | Eq => if Z.even q then q else (q + 1)%Z
  end.

(** [round(x, ndigits)] for a float and [ndigits >= 0]: the exact value of
    [x] is rounded half-even to [ndigits] decimals and the decimal result
    is converted back to the nearest float.  Infinities, NaN, zeros and
    integral values are returned unchanged. *)
Definition py_round (x : float) (ndigits : Z) : float :=
  match Prim2SF x with
  | S754_finite s m e =>
      if (0 <=? e)%Z then x
      else
        let scale := (10 ^ ndigits)%Z in
        let k := round_half_even (Zpos m * scale) (2 ^ (- e)) in
        if (k =? 0)%Z then SF2Prim (S754_zero s)
        else SF2Prim (SFdiv prec emax
                        (S754_finite s (Z.to_pos k) 0)
                        (S754_finite false (Z.to_pos scale) 0))
  | _ => x
  end.

(** [sum(f(w) for w in ws)] of booleans: the number of [True]s. *)
Fixpoint sum_bool {A} (f : A -> bool) (ws : list A) : Z :=
  match ws with
  | [] => 0%Z
  | w :: ws' => ((if f w then 1 else 0) + sum_bool f ws')%Z
  end.

(** [any(f(w) for w in ws)] *)
Definition any {A} (f : A -> bool) (ws : list A) : bool := existsb f ws.

(* ================================================================= *)
(** ** Request and response models *)

Record SentimentIn := { text : str }.

Record VibeIn := {
  mood : str;
  weather_main : option str;
  weather_desc : option str
}.

Inductive Label := POSITIVE | NEGATIVE | NEUTRAL.

(** The dictionary [{"label": ..., "score": ...}]. *)
Record SentimentOut := { label : Label; score : float }.

(** The lexicon analyzer: [polarity_scores(text)] returns a dictionary
    from names to floats.  The module global [analyzer] is [None] when
    the import failed at start-up. *)
Record SentimentIntensityAnalyzer := {
  polarity_scores : str -> list (str * float)
}.

(** [d.get(key, default)] *)
Fixpoint dict_get {V} (d : list (str * V)) (key : str) (default : V) : V :=
  match d with
  | [] => default
  | (k, v) :: d' => if str_eqb k key then v else dict_get d' key default
  end.

(** [x or ""] for an optional string. *)
Definition or_empty (x : option str) : str :=
  match x with
  | Some s => s
  | None => []
  end.

(** The keyword tables of [analyze_sentiment].  The emoji of the source
    file are stored there as the code points below. *)
Definition positives : list str :=
  [ py "happy"; py "great"; py "awesome"; py "love"; py "good";
    [0xF0; 0x178; 0x2DC; 0x160]%N; py ":)";
    [0xF0; 0x178; 0x2DC; 0x20AC]%N; [0xF0; 0x178; 0x2DC; 0x201E]%N;
    [0xF0; 0x178; 0x2DC; 0x17D]%N; [0xF0; 0x178; 0x2018]%N ].

Definition negatives : list str :=
  [ py "sad"; py "bad"; py "terrible"; py "hate"; py "angry";
    [0xF0; 0x178; 0x2DC; 0xA2]%N; py ":(";
    [0xF0; 0x178; 0x2DC; 0xAD]%N; [0xF0; 0x178; 0x2DC; 0xA1]%N;
    [0xF0; 0x178; 0x2DC; 0x17E]%N; [0xF0; 0x178; 0x2018; 0x17D]%N ].

(** The keyword tables of [vibe_note]. *)
Definition happy_keys : list str :=
  [ py "happy"; py "great"; py "good"; py "joy"; py "excited";
    [0xF0; 0x178; 0x2DC; 0x160]%N; [0xF0; 0x178; 0x2DC; 0x20AC]%N;
    [0xF0; 0x178; 0x2DC; 0x201E]%N; [0xF0; 0x178; 0x2DC; 0x17D]%N; py ":)" ].

Definition sad_keys : list str :=
  [ py "sad"; py "down"; py "tired"; py "low"; py "anxious";
    [0xF0; 0x178; 0x2DC; 0xA2]%N; [0xF0; 0x178; 0x2DC; 0xAD]%N; py ":(";
    [0xF0; 0x178; 0x2DC; 0x17E]%N ].

Definition angry_keys : list str :=
  [ py "angry"; py "frustrated"; py "mad"; [0xF0; 0x178; 0x2DC; 0xA1]%N ].

(** The weather phrases, in the order of the [if] chain. *)
Definition rain_phrase : str := py "the rhythm of the rain sets a calm tempo".
Definition cloud_phrase : str := py "soft clouds invite reflection and slow moments".
Definition clear_phrase : str := py "clear skies spark light and optimism".
Definition snow_phrase : str := py "snow hushes the world into a gentle hush".
Definition storm_phrase : str := py "storms rumble, but you carry quiet courage".
Definition generic_phrase : str := py "the air feels open to possibility".

(** The mood phrases; the dash and the apostrophe of the source file are
    stored there as the code points written out below. *)
Definition happy_phrase : str := py "your energy feels bright and contagious".
Definition sad_phrase : str :=
  py "be gentle with yourself" ++ [0xE2; 0x20AC; 0x201D]%N
  ++ py "small steps are still progress".
Definition angry_phrase : str := py "take a breath; let movement help shift the heat".
Definition default_phrase : str :=
  py "you" ++ [0xE2; 0x20AC; 0x2122]%N ++ py "re steady and present"
  ++ [0xE2; 0x20AC; 0x201D]%N ++ py "keep following the simple good".

Section Handlers.

Variable unicode_lower : UnicodeLower.

(** [s.lower()] *)
Definition lower (s : str) : str := lower_from unicode_lower [] s.

(** POST /api/sentiment.  [analyzer] is the module global. *)
Definition analyze_sentiment (analyzer : option SentimentIntensityAnalyzer)
    (payload : SentimentIn) : SentimentOut :=
  let text := strip (text payload) in
  match text with
  | [] => {| label := NEUTRAL; score := 0.0 |}
  | _ :: _ =>
    match analyzer with
    | None =>
        let lower := lower text in
        let p := sum_bool (fun w => str_in w lower) positives in
        let n := sum_bool (fun w => str_in w lower) negatives in
        if (p >? n)%Z then
          {| label := POSITIVE;
             score := py_min 1.0 (0.6 + 0.1 * float_of_int (p - n)) |}
        else if (n >? p)%Z then
          {| label := NEGATIVE;
             score := py_min 1.0 (0.6 + 0.1 * float_of_int (n - p)) |}
        else {| label := NEUTRAL; score := 0.5 |}
    | Some a =>
        let vs := polarity_scores a text in
        let compound := dict_get vs (py "compound") 0.0 in
        let label :=
          if float_ge compound 0.2 then POSITIVE
          else if float_le compound (-0.2) then NEGATIVE
          else NEUTRAL in
        {| label := label; score := py_round compound 4 |}
    end
  end.

(** The weather branch of [vibe_note]. *)
Definition weather_phrase (wm wd : str) : str :=
  if str_in (py "rain") wm || str_in (py "drizzle") wm then rain_phrase
  else if str_in (py "cloud") wm || str_in (py "overcast") wd then cloud_phrase
  else if str_in (py "clear") wm then clear_phrase
  else if str_in (py "snow") wm then snow_phrase
  else if str_in (py "storm") wm || str_in (py "thunder") wm then storm_phrase
  else generic_phrase.

(** The mood branch of [vibe_note]. *)
Definition mood_phrase (mood_lower : str) : str :=
  if any (fun k => str_in k mood_lower) happy_keys then happy_phrase
  else if any (fun k => str_in k mood_lower) sad_keys then sad_phrase
  else if any (fun k => str_in k mood_lower) angry_keys then angry_phrase
  else default_phrase.

(** POST /api/vibe-note: the value of the ["note"] entry. *)
Definition vibe_note (payload : VibeIn) : str :=
  let mood := strip (mood payload) in
  let wm := lower (or_empty (weather_main payload)) in
  let wd := lower (or_empty (weather_desc payload)) in
  let base := py "Today" in
  let weather_phrase := weather_phrase wm wd in
  let mood_lower := lower mood in
  let mood_phrase := mood_phrase mood_lower in
  base ++ py ", " ++ weather_phrase ++ py "; " ++ mood_phrase ++ py ".".

End Handlers.

(* ================================================================= *)
(** ** Exceptions and mutable state

    A computation reads and updates a state of type [S] and either
    returns a value or raises an exception of type [E].  Updates made
    before an exception is raised stay, as they do for a Python object
    that is mutated inside a [try] block. *)

Inductive outcome (E A : Type) : Type :=
| Return (a : A)
| Raise (e : E).

Arguments Return {E A} a.
Arguments Raise {E A} e.

Definition M (E S A : Type) : Type := S -> outcome E A * S.

Definition ret {E S A} (a : A) : M E S A := fun s => (Return a, s).

Definition raise {E S A} (e : E) : M E S A := fun s => (Raise e, s).

Definition bind {E S A B} (c : M E S A) (k : A -> M E S B) : M E S B :=
  fun s =>
    match c s with
    | (Return a, s') => k a s'
    | (Raise e, s') => (Raise e, s')
    end.

(** [try: body except E as e: handler(e)] *)
Definition try_except {E S A} (body : M E S A) (handler : E -> M E S A)
  : M E S A :=
  fun s =>
    match body s with
    | (Return a, s') => (Return a, s')
    | (Raise e, s') => handler e s'
    end.

Definition get_state {E S} : M E S S := fun s => (Return s, s).

Definition modify {E S} (f : S -> S) : M E S unit := fun s => (Return tt, f s).

(** The result of a call that may raise, made inside a computation. *)
Definition lift {E S A} (o : outcome E A) : M E S A := fun s => (o, s).

Declare Scope py_scope.
Delimit Scope py_scope with py_scope.
Notation "x <- c ;; k" := (bind c (fun x => k))
  (at level 61, c at next level, right associativity) : py_scope.
Notation "c ;; k" := (bind c (fun _ => k))
  (at level 61, right associativity) : py_scope.

(** [os.getenv(name)] reads the process environment. *)
Definition Environ := str -> option str.

(** Truth value of an optional string: [None] and [""] are false. *)
Definition truthy (x : option str) : bool :=
  match x with
  | Some (_ :: _) => true
  | _ => false
  end.

(* ================================================================= *)
(** ** GET /api/weather *)

Module Weather.

(** Values decoded by [r.json()].  A dictionary is the list of its
    entries, each key once. *)
Inductive Json :=
| JNone
| JBool (b : bool)
| JInt (z : Z)
| JFloat (f : float)
| JStr (s : str)
| JList (l : list Json)
| JDict (d : list (str * Json)).

(** What can be raised inside [get_weather]: an [HTTPException], any
    other instance of class [Exception] (with its [str(e)]), or an
    exception outside class [Exception], such as [KeyboardInterrupt] or
    [SystemExit] (with its class name). *)
Inductive exn :=
| HTTPException (status_code : Z) (detail : str)
| Exception (msg : str)
| BaseException (cls : str).

Record Request := {
  url : str;
  params : list (str * str);
  timeout : Z
}.

(** The response object of [requests.get]: [r.json()] raises when the
    body is not JSON. *)
Record Response := {
  status_code : Z;
  text : str;
  json : outcome exn Json
}.

Record WeatherResult := {
  city : Json;
  country : Json;
  temp : Json;
  feels_like : Json;
  humidity : Json;
  wind : Json;
  weather_main : Json;
  weather_desc : Json;
  icon : Json
}.

Definition type_name (v : Json) : str :=
  match v with
  | JNone => py "NoneType"
  | JBool _ => py "bool"
  | JInt _ => py "int"
  | JFloat _ => py "float"
  | JStr _ => py "str"
  | JList _ => py "list"
  | JDict _ => py "dict"
  end.

Definition is_true (v : Json) : bool :=
  match v with
  | JNone => false
  | JBool b => b
  | JInt z => negb (z =? 0)%Z
  | JFloat f => negb (PrimFloat.eqb f 0)
  | JStr s => match s with [] => false | _ => true end
  | JList l => match l with [] => false | _ => true end
  | JDict d => match d with [] => false | _ => true end
  end.

(** [a or b] *)
Definition py_or (a b : Json) : Json := if is_true a then a else b.

(** The state of a call is the list of outbound requests made so far. *)
Definition W := M exn (list Request).

(** [v.get(key, default)]: only a dictionary has the method. *)
Definition get (v : Json) (key : str) (default : Json) : W Json :=
  match v with
  | JDict d => ret (dict_get d key default)
  | _ => raise (Exception (py "'" ++ type_name v
                           ++ py "' object has no attribute 'get'"))
  end.

(** [v[0]] *)
Definition item0 (v : Json) : W Json :=
  match v with
  | JList (x :: _) => ret x
  | JList [] => raise (Exception (py "list index out of range"))
  | JStr (c :: _) => ret (JStr [c])
  | JStr [] => raise (Exception (py "string index out of range"))
  | JDict _ => raise (Exception (py "0"))
  | _ => raise (Exception (py "'" ++ type_name v
                           ++ py "' object is not subscriptable"))
  end.

Section Handler.

Variable environ : Environ.

(** What the network answers to a request: a response, or an exception
    of [requests]. *)
Variable network : Request -> outcome exn Response.

(** [requests.get(url, params=params, timeout=timeout)] *)
Definition requests_get (url : str) (params : list (str * str))
    (timeout : Z) : W Response :=
  let req := {| url := url; params := params; timeout := timeout |} in
  fun sent => (network req, sent ++ [req]).

Local Open Scope py_scope.

Definition get_weather (city : str) (api_key : option str)
  : W WeatherResult :=
  let key := if truthy api_key then api_key
             else environ (py "OPENWEATHER_API_KEY") in
  match key with
  | None | Some [] =>
      raise (HTTPException 500
        (py "OPENWEATHER_API_KEY not set on server; provide ?api_key=..."))
  | Some key =>
      let params := [ (py "q", city); (py "appid", key);
                      (py "units", py "metric") ] in
      try_except
        (r <- requests_get
                (py "https://api.openweathermap.org/data/2.5/weather")
                params 12 ;;
         if negb (status_code r =? 200)%Z then
           raise (HTTPException (status_code r) (text r))
         else
           data <- lift (json r) ;;
           v_city <- get data (py "name") JNone ;;
           sys <- get data (py "sys") (JDict []) ;;
           v_country <- get sys (py "country") JNone ;;
           main1 <- get data (py "main") (JDict []) ;;
           v_temp <- get main1 (py "temp") JNone ;;
           main2 <- get data (py "main") (JDict []) ;;
           v_feels_like <- get main2 (py "feels_like") JNone ;;
           main3 <- get data (py "main") (JDict []) ;;
           v_humidity <- get main3 (py "humidity") JNone ;;
           wind0 <- get data (py "wind") (JDict []) ;;
           v_wind <- get wind0 (py "speed") JNone ;;
           weather1 <- get data (py "weather") JNone ;;
           first1 <- item0 (py_or weather1 (JList [JDict []])) ;;
           v_weather_main <- get first1 (py "main") JNone ;;
           weather2 <- get data (py "weather") JNone ;;
           first2 <- item0 (py_or weather2 (JList [JDict []])) ;;
           v_weather_desc <- get first2 (py "description") JNone ;;
           weather3 <- get data (py "weather") JNone ;;
           first3 <- item0 (py_or weather3 (JList [JDict []])) ;;
           v_icon <- get first3 (py "icon") JNone ;;
           ret {| city := v_city; country := v_country; temp := v_temp;
                  feels_like := v_feels_like; humidity := v_humidity;
                  wind := v_wind; weather_main := v_weather_main;
                  weather_desc := v_weather_desc; icon := v_icon |})
        (fun e =>
           match e with
           | HTTPException _ _ => raise e
           | Exception msg => raise (HTTPException 500 msg)
           | BaseException _ => raise e   (* no [except] clause matches *)
           end)
  end.

End Handler.

End Weather.

(* ================================================================= *)
(** ** GET /test *)

Module Diagnostics.

(** The exceptions a probe can raise: [ImportError] (with its
    subclasses), any other instance of class [Exception], or an
    exception outside class [Exception], such as [SystemExit] or
    [KeyboardInterrupt]; each carries [str(e)]. *)
Inductive exn :=
| ImportError (msg : str)
| Exception (msg : str)
| BaseException (msg : str).

Definition exn_str (e : exn) : str :=
  match e with
  | ImportError msg => msg
  | Exception msg => msg
  | BaseException msg => msg
  end.

(** Looking an attribute up on an object: it is missing (the lookup
    raises [AttributeError]), it has a value, or computing it raises
    another exception. *)
Inductive attribute (A : Type) :=
| Missing
| Value (v : A)
| Raises (e : exn).

Arguments Missing {A}.
Arguments Value {A} v.
Arguments Raises {A} e.

(** The database handle [db] of the optional [database] module. *)
Record Database := {
  name : attribute str;
  list_collection_names : outcome exn (list str)
}.

(** The dictionary [response]. *)
Record Report := {
  backend : str;
  database : str;
  database_url : option str;
  database_name : option str;
  connection_status : str;
  collections : list str
}.

Definition set_database (v : str) (r : Report) : Report :=
  {| backend := backend r; database := v;
     database_url := database_url r; database_name := database_name r;
     connection_status := connection_status r;
     collections := collections r |}.

Definition set_database_url (v : option str) (r : Report) : Report :=
  {| backend := backend r; database := database r;
     database_url := v; database_name := database_name r;
     connection_status := connection_status r;
     collections := collections r |}.

Definition set_database_name (v : option str) (r : Report) : Report :=
  {| backend := backend r; database := database r;
     database_url := database_url r; database_name := v;
     connection_status := connection_status r;
     collections := collections r |}.

Definition set_connection_status (v : str) (r : Report) : Report :=
  {| backend := backend r; database := database r;
     database_url := database_url r; database_name := database_name r;
     connection_status := v;
     collections := collections r |}.

Definition set_collections (v : list str) (r : Report) : Report :=
  {| backend := backend r; database := database r;
     database_url := database_url r; database_name := database_name r;
     connection_status := connection_status r;
     collections := v |}.

(** The three marks of the status strings, as the source file stores
    them. *)
Definition ok_mark : str := [0xE2; 0x153; 0x2026]%N.
Definition no_mark : str := [0xE2; 0x152]%N.
Definition warn_mark : str := [0xE2; 0x161; 0xA0; 0xEF; 0xB8]%N.

Definition D := M exn Report.

Section Handler.

(** The outcome of [from database import db]: an exception, or the
    value of [db], which may be [None]. *)
Variable import_db : outcome exn (option Database).

Variable environ : Environ.

Local Open Scope py_scope.

Definition initial_response : Report :=
  {| backend := ok_mark ++ py " Running";
     database := no_mark ++ py " Not Available";
     database_url := None;
     database_name := None;
     connection_status := py "Not Connected";
     collections := [] |}.

(** The [try] statement of [test_database], run on [response]. *)
Definition probe_database : D unit :=
  try_except
    (db <- lift import_db ;;
     match db with
     | Some db =>
         modify (set_database (ok_mark ++ py " Available")) ;;
         modify (set_database_url (Some (ok_mark ++ py " Configured"))) ;;
         (* db.name if hasattr(db, 'name') else ...: [hasattr] is false
            exactly when the lookup raises AttributeError, and lets any
            other exception through *)
         db_name <- match name db with
                    | Value v => ret v
                    | Missing => ret (ok_mark ++ py " Connected")
                    | Raises e => raise e
                    end ;;
         modify (set_database_name (Some db_name)) ;;
         modify (set_connection_status (py "Connected")) ;;
         try_except
           (collections <- lift (list_collection_names db) ;;
            modify (set_collections (slice_to 10 collections)) ;;
            modify (set_database (ok_mark ++ py " Connected & Working")))
           (fun e =>
              match e with
              | BaseException _ => raise e   (* not an [Exception] *)
              | _ =>
                  modify (set_database
                            (warn_mark ++ py "  Connected but Error: "
                             ++ slice_to 50 (exn_str e)))
              end)
     | None =>
         modify (set_database
                   (warn_mark ++ py "  Available but not initialized"))
     end)
    (fun e =>
       match e with
       | ImportError _ =>
           modify (set_database
                     (no_mark ++ py " Database module not found (run enable-database first)"))
       | Exception _ =>
           modify (set_database
                     (no_mark ++ py " Error: " ++ slice_to 50 (exn_str e)))
       | BaseException _ => raise e   (* no [except] clause matches *)
       end).

(** The two assignments after the [try] statement. *)
Definition check_environment : D unit :=
  modify (set_database_url
            (Some (if truthy (environ (py "DATABASE_URL"))
                   then ok_mark ++ py " Set"
                   else no_mark ++ py " Not Set"))) ;;
  modify (set_database_name
            (Some (if truthy (environ (py "DATABASE_NAME"))
                   then ok_mark ++ py " Set"
                   else no_mark ++ py " Not Set"))).

Definition test_database : outcome exn Report :=
  fst ((probe_database ;; check_environment ;; get_state) initial_response).

End Handler.

End Diagnostics.

(* ================================================================= *)
(** ** Vocabulary of the specification *)

(** [w] occurs in [s] as a contiguous run of characters. *)
Definition Substring (w s : str) : Prop := exists a b, s = a ++ w ++ b.

(** [keyword_count s ws k]: exactly [k] of the keywords [ws] occur in
    [s]; a keyword that occurs several times counts once. *)
Inductive keyword_count (s : str) : list str -> Z -> Prop :=
| count_nil : keyword_count s [] 0
| count_hit w ws k :
    Substring w s -> keyword_count s ws k ->
    keyword_count s (w :: ws) (1 + k)
| count_miss w ws k :
    ~ Substring w s -> keyword_count s ws k ->
    keyword_count s (w :: ws) k.

(** The thresholding rule of the lexicon path, applied to a number. *)
Definition threshold_label (x : float) : Label :=
  if float_ge x 0.2 then POSITIVE
  else if float_le x (-0.2) then NEGATIVE
  else NEUTRAL.

(** The first-match-wins order of the weather tests, on the lower-cased
    [weather_main] and [weather_desc]. *)
Definition weather_priority (wm wd wp : str) : Prop :=
  let rain := Substring (py "rain") wm \/ Substring (py "drizzle") wm in
  let cloud := Substring (py "cloud") wm \/ Substring (py "overcast") wd in
  let clear := Substring (py "clear") wm in
  let snow := Substring (py "snow") wm in
  let storm := Substring (py "storm") wm \/ Substring (py "thunder") wm in
  (rain -> wp = rain_phrase) /\
  (~ rain -> cloud -> wp = cloud_phrase) /\
  (~ rain -> ~ cloud -> clear -> wp = clear_phrase) /\
  (~ rain -> ~ cloud -> ~ clear -> snow -> wp = snow_phrase) /\
  (~ rain -> ~ cloud -> ~ clear -> ~ snow -> storm -> wp = storm_phrase) /\
  (~ rain -> ~ cloud -> ~ clear -> ~ snow -> ~ storm -> wp = generic_phrase).

(** ["Today, {weather_phrase}; {mood_phrase}."] *)
Definition template (wp mp : str) : str :=
  py "Today, " ++ wp ++ py "; " ++ mp ++ py ".".

Definition weather_phrases : list str :=
  [ rain_phrase; cloud_phrase; clear_phrase; snow_phrase; storm_phrase;
    generic_phrase ].

Definition mood_phrases : list str :=
  [ happy_phrase; sad_phrase; angry_phrase; default_phrase ].

Definition all_notes : list str :=
  flat_map (fun wp => map (template wp) mood_phrases) weather_phrases.

Definition endswith (w s : str) : bool := startswith (rev w) (rev s).

Fixpoint all_distinct (l : list str) : bool :=
  match l with
  | [] => true
  | x :: l' => negb (existsb (str_eqb x) l') && all_distinct l'
  end.

(** A lower-case table that leaves every non-ASCII character as it is;
    it stands in for the Unicode table in runs on ASCII text. *)
Definition ascii_only : UnicodeLower := fun _ c _ => [c].

(** A computation that leaves the list of outbound requests as it
    found it. *)
Definition silent {A} (c : Weather.W A) : Prop :=
  forall sent, snd (c sent) = sent.

(** The status string the diagnostics report carries for each outcome
    of the probes. *)
Definition expected_database
    (import_db : outcome Diagnostics.exn (option Diagnostics.Database))
  : str :=
  let not_found :=
    Diagnostics.no_mark
    ++ py " Database module not found (run enable-database first)" in
  let error msg :=
    Diagnostics.no_mark ++ py " Error: " ++ slice_to 50 msg in
  let rendered e :=
    match e with
    | Diagnostics.ImportError _ => not_found
    | Diagnostics.Exception msg => error msg
    | Diagnostics.BaseException _ => []   (* not caught: no report *)
    end in
  match import_db with
  | Raise e => rendered e
  | Return None =>
      Diagnostics.warn_mark ++ py "  Available but not initialized"
  | Return (Some db) =>
      match Diagnostics.name db with
      | Diagnostics.Raises e => rendered e
      | _ =>
          match Diagnostics.list_collection_names db with
          | Raise (Diagnostics.BaseException _) => []
          | Raise e =>
              Diagnostics.warn_mark ++ py "  Connected but Error: "
              ++ slice_to 50 (Diagnostics.exn_str e)
          | Return _ => Diagnostics.ok_mark ++ py " Connected & Working"
          end
      end
  end.

(* ================================================================= *)
(** ** Sample inputs *)

(** An analyzer whose dictionary has no compound entry. *)
Definition silent_analyzer : SentimentIntensityAnalyzer :=
  {| polarity_scores := fun _ => [] |}.

(** Requests that between them produce every note: one weather word per
    branch of the weather test, one mood word per branch of the mood
    test. *)
Definition sample_weather : list str :=
  [ py "Rain"; py "Clouds"; py "Clear"; py "Snow"; py "Thunderstorm";
    py "Mist" ].

Definition sample_moods : list str :=
  [ py "happy"; py "sad"; py "angry"; py "calm" ].

Definition sample_payloads : list VibeIn :=
  flat_map (fun w =>
              map (fun m => {| mood := m; weather_main := Some w;
                               weather_desc := None |}) sample_moods)
           sample_weather.

(** An analyzer that answers every text with a fixed dictionary, as the
    lexicon does for a mildly positive sentence. *)
Definition glad_analyzer : SentimentIntensityAnalyzer :=
  {| polarity_scores := fun _ =>
       [ (py "neg", 0.0); (py "neu", 0.323); (py "pos", 0.677);
         (py "compound", 0.6369) ] |}.

(** A process environment with no variable set, and one in which the
    two database variables are there, the first with an empty value. *)
Definition empty_environ : Environ := fun _ => None.

Definition database_environ : Environ :=
  fun k => if str_eqb k (py "DATABASE_URL") then Some []
           else if str_eqb k (py "DATABASE_NAME") then Some (py "vibes")
           else None.

(** A network on which every request times out. *)
Definition dead_network
  : Weather.Request -> outcome Weather.exn Weather.Response :=
  fun _ => Raise (Weather.Exception (py "Read timed out.")).

(** A database handle whose listing fails. *)
Definition broken_database : Diagnostics.Database :=
  {| Diagnostics.name := Diagnostics.Value (py "vibes");
     Diagnostics.list_collection_names :=
       Raise (Diagnostics.Exception (py "ServerSelectionTimeoutError")) |}.

(* ================================================================= *)
(** ** Further vocabulary *)

(** [api_key or os.getenv("OPENWEATHER_API_KEY")], the key
    [get_weather] goes on with. *)
Definition resolve_key (environ : Environ) (api_key : option str)
  : option str :=
  if truthy api_key then api_key else environ (py "OPENWEATHER_API_KEY").

(** The one request [get_weather] sends for a city and a key. *)
Definition weather_request (city key : str) : Weather.Request :=
  {| Weather.url := py "https://api.openweathermap.org/data/2.5/weather";
     Weather.params := [ (py "q", city); (py "appid", key);
                         (py "units", py "metric") ];
     Weather.timeout := 12 |}.

(** An outcome in which no instance of class [Exception] other than an
    [HTTPException] is raised: it is a value, an [HTTPException], or an
    exception outside class [Exception]. *)
Definition no_plain_exception {A} (o : outcome Weather.exn A) : Prop :=
  match o with
  | Raise (Weather.Exception _) => False
  | _ => True
  end.

(** The exception is an instance of class [Exception]. *)
Definition is_Exception (e : Diagnostics.exn) : Prop :=
  match e with
  | Diagnostics.BaseException _ => False
  | _ => True
  end.

(** Whatever the probes of [test_database] raise on the way (the
    import, the lookup of the handle's name, the collection listing,
    each reached only if the one before did not raise) is an instance
    of class [Exception]. *)
Definition probes_raise_Exception
    (import_db : outcome Diagnostics.exn (option Diagnostics.Database))
  : Prop :=
  match import_db with
  | Raise e => is_Exception e
  | Return None => True
  | Return (Some db) =>
      match Diagnostics.name db with
      | Diagnostics.Raises e => is_Exception e
      | _ =>
          match Diagnostics.list_collection_names db with
          | Raise e => is_Exception e
          | Return _ => True
          end
      end
  end.

(** The number of places of [s] at which [w] starts, and the total over
    a table of keywords: the count of occurrences of the keywords. *)
Fixpoint occurrences (w s : str) : Z :=
  ((if startswith w s then 1 else 0) +
   match s with
   | [] => 0
   | _ :: s' => occurrences w s'
   end)%Z.

Fixpoint occurrence_count (ws : list str) (s : str) : Z :=
  match ws with
  | [] => 0%Z
  | w :: ws' => (occurrences w s + occurrence_count ws' s)%Z
  end.

(** The float written [k/10000] in decimal, such as [0.6369]: the
    quotient of the two integers, correctly rounded. *)
Definition decimal4 (k : Z) : float := float_of_int k / 10000.

(** The compound scores the lexicon analyzer reports: a number of
    [-1, 1] rounded to four decimals. *)
Definition four_decimal (x : float) : Prop :=
  exists k : Z, (-10000 <= k <= 10000)%Z /\ x = decimal4 k.

(** [count_up n z] is [z; z+1; ...], [n] numbers. *)
Fixpoint count_up (n : nat) (z : Z) : list Z :=
  match n with
  | O => []
  | S n' => z :: count_up n' (z + 1)%Z
  end.

Definition Label_eqb (a b : Label) : bool :=
  match a, b with
  | POSITIVE, POSITIVE | NEGATIVE, NEGATIVE | NEUTRAL, NEUTRAL => true
  | _, _ => false
  end.

(** The label of a four-decimal score is the label of that score
    rounded once more. *)
Definition label_stable (k : Z) : bool :=
  Label_eqb (threshold_label (decimal4 k))
            (threshold_label (py_round (decimal4 k) 4)).

(** A lower-case table never yields the code point [c]. *)
Definition never_yields (ul : UnicodeLower) (c : codepoint) : Prop :=
  forall before x after, ~ In c (ul before x after).

(** The lower-case table on the capital letters that occur in the
    stored emoji keywords (U+0178, U+0160, U+017D); other non-ASCII
    characters are left as they are. *)
Definition latin_lower : UnicodeLower :=
  fun _ c _ =>
    if (c =? 0x178)%N then [0xFF%N]
    else if (c =? 0x160)%N then [0x161%N]
    else if (c =? 0x17D)%N then [0x17E%N]
    else [c].

(** The keywords of a table that are plain ASCII, and the others: the
    stored emoji. *)
Definition ascii_keys (ws : list str) : list str :=
  filter (forallb is_ascii) ws.

Definition emoji_keys (ws : list str) : list str :=
  filter (fun w => negb (forallb is_ascii w)) ws.

(** A database module that ends the process when it is imported, and a
    handle whose listing is interrupted from the keyboard. *)
Definition exiting_import
  : outcome Diagnostics.exn (option Diagnostics.Database) :=
  Raise (Diagnostics.BaseException (py "1")).

Definition interrupted_database : Diagnostics.Database :=
  {| Diagnostics.name := Diagnostics.Value (py "vibes");
     Diagnostics.list_collection_names :=
       Raise (Diagnostics.BaseException []) |}.

(** The key [k] is not among the entries of a dictionary. *)
Definition absent {V} (k : str) (d : list (str * V)) : Prop :=
  forall v, ~ In (k, v) d.

(** Two ASCII strings that differ at most in the case of letters. *)
Definition same_letters (s t : str) : Prop :=
  forallb is_ascii s = true /\ forallb is_ascii t = true /\
  map ascii_lower s = map ascii_lower t.

(** The scores the keyword heuristic can give. *)
Definition fallback_scores : list float := [0.5; 0.7; 0.8; 0.9; 1.0].

(** Some keyword of a table occurs in [s]. *)
Definition mentions (keys : list str) (s : str) : Prop :=
  exists k, In k keys /\ Substring k s.

(** The first-match-wins order of the mood tests, on the lower-cased,
    trimmed mood. *)
Definition mood_priority (m mp : str) : Prop :=
  (mentions happy_keys m -> mp = happy_phrase) /\
  (~ mentions happy_keys m -> mentions sad_keys m -> mp = sad_phrase) /\
  (~ mentions happy_keys m -> ~ mentions sad_keys m ->
   mentions angry_keys m -> mp = angry_phrase) /\
  (~ mentions happy_keys m -> ~ mentions sad_keys m ->
   ~ mentions angry_keys m -> mp = default_phrase).

(** How far the database probe gets: [Some] of the outcome of the
    collection listing when the import gives a handle and looking up
    its name does not raise, [None] when it stops before. *)
Definition listing_outcome
    (import_db : outcome Diagnostics.exn (option Diagnostics.Database))
  : option (outcome Diagnostics.exn (list str)) :=
  match import_db with
  | Return (Some db) =>
      match Diagnostics.name db with
      | Diagnostics.Raises _ => None
      | _ => Some (Diagnostics.list_collection_names db)
      end
  | _ => None
  end.

(** A provider answer for Paris, with no wind entry and a null
    humidity, and a network that gives it to every request. *)
Definition paris_body : Weather.Json :=
  Weather.JDict
    [ (py "name", Weather.JStr (py "Paris"));
      (py "sys", Weather.JDict [ (py "country", Weather.JStr (py "FR")) ]);
      (py "main", Weather.JDict [ (py "temp", Weather.JFloat 18.5);
                                  (py "feels_like", Weather.JInt 18);
                                  (py "humidity", Weather.JNone) ]);
      (py "weather",
       Weather.JList
         [ Weather.JDict [ (py "main", Weather.JStr (py "Clouds"));
                           (py "description",
                            Weather.JStr (py "overcast clouds"));
                           (py "icon", Weather.JStr (py "04d")) ] ]) ].

Definition paris_network
  : Weather.Request -> outcome Weather.exn Weather.Response :=
  fun _ => Return {| Weather.status_code := 200;
                     Weather.text := py "{...}";
                     Weather.json := Return paris_body |}.

(** A provider that turns the key down, and one whose body is a JSON
    list. *)
Definition refusing_network
  : Weather.Request -> outcome Weather.exn Weather.Response :=
  fun _ => Return {| Weather.status_code := 401;
                     Weather.text := py "Invalid API key";
                     Weather.json :=
                       Return (Weather.JDict
                                 [ (py "cod", Weather.JInt 401) ]) |}.

Definition list_network
  : Weather.Request -> outcome Weather.exn Weather.Response :=
  fun _ => Return {| Weather.status_code := 200;
                     Weather.text := py "[]";
                     Weather.json := Return (Weather.JList []) |}.

(** An environment that holds the weather key only. *)
Definition key_environ : Environ :=
  fun k => if str_eqb k (py "OPENWEATHER_API_KEY") then Some (py "s3cret")
           else None.

(** A database handle with twelve collections and no [name]. *)
Definition crowded_database : Diagnostics.Database :=
  {| Diagnostics.name := Diagnostics.Missing;
     Diagnostics.list_collection_names :=
       Return (map (fun c => [c]) (py "abcdefghijkl")) |}.

(* ================================================================= *)
(** ** Strings: substring test and stripping *)

Lemma startswith_app (w s : str) :
  startswith w s = true <-> exists b, s = w ++ b.
Proof.
  revert s; induction w as [|a w IH]; intros s; simpl.
  - split; [intros _; now exists s | reflexivity].
  - destruct s as [|c s].
    + split; [discriminate | intros [b Hb]; discriminate].
    + rewrite andb_true_iff, N.eqb_eq, IH. split.
      * intros [-> [b ->]]. now exists b.
      * intros [b Hb]. injection Hb as -> ->. split; [reflexivity | now exists b].
Qed.

Lemma str_in_Substring (w s : str) :
  str_in w s = true <-> Substring w s.
Proof.
  unfold Substring. induction s as [|c s IH].
  - simpl. rewrite orb_false_r, startswith_app. split.
    + intros [b Hb]. exists [], b. exact Hb.
    + intros [a [b Hab]]. destruct a; [now exists b | discriminate].
  - cbn [str_in]. rewrite orb_true_iff, startswith_app, IH. split.
    + intros [[b Hb] | [a [b Hab]]].
      * exists [], b. exact Hb.
      * exists (c :: a), b. simpl. now rewrite Hab.
    + intros [a [b Hab]]. destruct a as [|x a].
      * left. now exists b.
      * right. injection Hab as _ ->. now exists a, b.
Qed.

Lemma str_in_not_Substring (w s : str) :
  str_in w s = false <-> ~ Substring w s.
Proof.
  rewrite <- str_in_Substring. destruct (str_in w s); split; congruence.
Qed.

Lemma lstrip_spaces (s : str) :
  forallb is_space s = true -> lstrip s = [].
Proof.
  induction s as [|c s IH]; simpl; [reflexivity|].
  intros H. apply andb_true_iff in H as [Hc Hs]. rewrite Hc. auto.
Qed.

Lemma strip_spaces (s : str) :
  forallb is_space s = true -> strip s = [].
Proof.
  intros H. unfold strip, rstrip. now rewrite (lstrip_spaces _ H).
Qed.

Lemma lstrip_head (s : str) :
  match lstrip s with
  | [] => forallb is_space s = true
  | c :: _ => is_space c = false
  end.
Proof.
  induction s as [|c s IH]; simpl; [reflexivity|].
  destruct (is_space c) eqn:Hc; simpl; [exact IH | exact Hc].
Qed.

Lemma forallb_rev {A} (f : A -> bool) (l : list A) :
  forallb f (rev l) = forallb f l.
Proof.
  induction l as [|x l IH]; simpl; [reflexivity|].
  rewrite forallb_app, IH. simpl. rewrite andb_true_r. apply andb_comm.
Qed.

(** Stripping leaves nothing exactly when every character is white
    space. *)
Lemma strip_nil_iff (s : str) :
  strip s = [] <-> forallb is_space s = true.
Proof.
  split; [|apply strip_spaces].
  unfold strip, rstrip. intros H.
  assert (H1 : lstrip (rev (lstrip s)) = []).
  { apply (f_equal (@rev codepoint)) in H.
    now rewrite rev_involutive in H. }
  pose proof (lstrip_head (rev (lstrip s))) as H2. rewrite H1 in H2.
  rewrite forallb_rev in H2.
  pose proof (lstrip_head s) as H3.
  destruct (lstrip s) as [|c r]; [exact H3|].
  simpl in H2. rewrite H3 in H2. discriminate.
Qed.

(* ================================================================= *)
(** ** Counting keywords *)

Lemma keyword_count_sum_bool (s : str) (ws : list str) :
  keyword_count s ws (sum_bool (fun w => str_in w s) ws).
Proof.
  induction ws as [|w ws IH]; simpl; [constructor|].
  destruct (str_in w s) eqn:Hw.
  - apply count_hit; [now apply str_in_Substring | exact IH].
  - apply count_miss; [now apply str_in_not_Substring | exact IH].
Qed.

Lemma keyword_count_unique (s : str) (ws : list str) (k : Z) :
  keyword_count s ws k -> k = sum_bool (fun w => str_in w s) ws.
Proof.
  induction 1 as [|w ws k Hw _ IH|w ws k Hw _ IH]; simpl.
  - reflexivity.
  - apply str_in_Substring in Hw. rewrite Hw, IH. reflexivity.
  - apply str_in_not_Substring in Hw. rewrite Hw, IH. reflexivity.
Qed.

Lemma sum_bool_bounds {A} (f : A -> bool) (ws : list A) :
  (0 <= sum_bool f ws <= Z.of_nat (List.length ws))%Z.
Proof.
  induction ws as [|w ws IH]; cbn [List.length sum_bool]; [lia|].
  destruct (f w); lia.
Qed.

(** The fallback score at a count difference [d] between 1 and 11. *)
Lemma fallback_score_range (d : Z) :
  (1 <= d <= 11)%Z ->
  let x := py_min 1.0 (0.6 + 0.1 * float_of_int d) in
  leb 0 x = true /\ leb x 1 = true.
Proof.
  intros Hd.
  assert (H : (d = 1 \/ d = 2 \/ d = 3 \/ d = 4 \/ d = 5 \/ d = 6 \/ d = 7
               \/ d = 8 \/ d = 9 \/ d = 10 \/ d = 11)%Z) by lia.
  repeat (destruct H as [-> | H]); try subst d; vm_compute; split; reflexivity.
Qed.

(* ================================================================= *)
(** ** The sentiment classifier *)

Section SentimentProperties.

Variable ul : UnicodeLower.

(** On the fallback path the handler is a function of the two keyword
    sums of the lower-cased, stripped text. *)
Lemma analyze_sentiment_fallback (payload : SentimentIn) :
  strip (text payload) <> [] ->
  let s := lower ul (strip (text payload)) in
  let p := sum_bool (fun w => str_in w s) positives in
  let n := sum_bool (fun w => str_in w s) negatives in
  analyze_sentiment ul None payload =
    if (p >? n)%Z then
      {| label := POSITIVE;
         score := py_min 1.0 (0.6 + 0.1 * float_of_int (p - n)) |}
    else if (n >? p)%Z then
      {| label := NEGATIVE;
         score := py_min 1.0 (0.6 + 0.1 * float_of_int (n - p)) |}
    else {| label := NEUTRAL; score := 0.5 |}.
Proof.
  intros Hne. unfold analyze_sentiment.
  destruct (strip (text payload)) as [|c t]; [congruence | reflexivity].
Qed.

(** C1, as the code has it: without the lexicon analyzer, a text that
    is not empty after trimming is classified from [p] and [n], the
    numbers of positive and of negative keywords that occur as
    substrings of the lower-cased text, each keyword counting once
    however often it occurs: POSITIVE with score
    [min(1.0, 0.6 + 0.1*(p-n))] when [p > n],
    NEGATIVE with score [min(1.0, 0.6 + 0.1*(n-p))] when [n > p], NEUTRAL
    with score [0.5] when [p = n]; and "I am so happy and great" is
    POSITIVE with score 0.8. *)
Theorem fallback_classification :
  (forall payload : SentimentIn,
     strip (text payload) <> [] ->
     exists p n : Z,
       keyword_count (lower ul (strip (text payload))) positives p /\
       keyword_count (lower ul (strip (text payload))) negatives n /\
       let r := analyze_sentiment ul None payload in
       ((p > n)%Z ->
          label r = POSITIVE /\
          score r = py_min 1.0 (0.6 + 0.1 * float_of_int (p - n))) /\
       ((n > p)%Z ->
          label r = NEGATIVE /\
          score r = py_min 1.0 (0.6 + 0.1 * float_of_int (n - p))) /\
       (p = n -> label r = NEUTRAL /\ score r = 0.5))
  /\ analyze_sentiment ul None {| text := py "I am so happy and great" |}
     = {| label := POSITIVE; score := 0.8 |}.
Proof.
  split; [|vm_compute; reflexivity].
  intros payload Hne.
  exists (sum_bool (fun w => str_in w (lower ul (strip (text payload)))) positives),
         (sum_bool (fun w => str_in w (lower ul (strip (text payload)))) negatives).
  split; [apply keyword_count_sum_bool|].
  split; [apply keyword_count_sum_bool|].
  intros r. subst r. rewrite (analyze_sentiment_fallback payload Hne). cbv zeta.
  set (p := sum_bool _ positives). set (n := sum_bool _ negatives).
  destruct (Z.gtb_spec p n) as [Hpn|Hpn].
  - repeat split; intros; try lia; reflexivity.
  - destruct (Z.gtb_spec n p) as [Hnp|Hnp].
    + repeat split; intros; try lia; reflexivity.
    + repeat split; intros; try lia; reflexivity.
Qed.

(** C5: on the fallback path, for a text that is not empty after
    trimming, the score lies in [0, 1] when the positive and negative
    counts differ and is exactly 0.5 when they are equal. *)
Theorem fallback_score_bounds (payload : SentimentIn) (p n : Z) :
  strip (text payload) <> [] ->
  keyword_count (lower ul (strip (text payload))) positives p ->
  keyword_count (lower ul (strip (text payload))) negatives n ->
  let r := analyze_sentiment ul None payload in
  (p <> n -> leb 0 (score r) = true /\ leb (score r) 1 = true) /\
  (p = n -> score r = 0.5).
Proof.
  intros Hne Hp Hn r. subst r.
  rewrite (analyze_sentiment_fallback payload Hne). cbv zeta.
  apply keyword_count_unique in Hp, Hn. rewrite <- Hp, <- Hn.
  assert (Bp : (0 <= p <= 11)%Z)
    by (rewrite Hp; apply (sum_bool_bounds _ positives)).
  assert (Bn : (0 <= n <= 11)%Z)
    by (rewrite Hn; apply (sum_bool_bounds _ negatives)).
  destruct (Z.gtb_spec p n) as [Hpn|Hpn].
  - split; [intros _ | lia]. apply fallback_score_range. lia.
  - destruct (Z.gtb_spec n p) as [Hnp|Hnp].
    + split; [intros _ | lia]. apply fallback_score_range. lia.
    + split; [lia | reflexivity].
Qed.

(** C3: a text that is empty or all white space is NEUTRAL with score
    0.0, whatever the analyzer is: present or absent, it is not asked. *)
Theorem blank_text_is_neutral
    (analyzer : option SentimentIntensityAnalyzer) (payload : SentimentIn) :
  forallb is_space (text payload) = true ->
  analyze_sentiment ul analyzer payload = {| label := NEUTRAL; score := 0.0 |}.
Proof.
  intros H. unfold analyze_sentiment.
  now rewrite (strip_spaces _ H).
Qed.

End SentimentProperties.

Lemma Label_eqb_eq (a b : Label) : Label_eqb a b = true -> a = b.
Proof. destruct a, b; simpl; intros H; congruence. Qed.

Lemma in_count_up (n : nat) (z k : Z) :
  (z <= k < z + Z.of_nat n)%Z -> In k (count_up n z).
Proof.
  revert z. induction n as [|n IH]; intros z Hk; [lia|].
  cbn [count_up]. destruct (Z.eq_dec z k) as [->|Hz]; [now left|].
  right. apply IH. lia.
Qed.

(** Every four-decimal number of [-1, 1] keeps its label when it is
    rounded to four decimals: checked on each of the 20001 numbers. *)
Lemma four_decimal_range_stable :
  forallb label_stable (count_up (Z.to_nat 20001) (-10000)) = true.
Proof. vm_compute. reflexivity. Qed.

Lemma four_decimal_labels_stable (k : Z) :
  (-10000 <= k <= 10000)%Z -> label_stable k = true.
Proof.
  intros Hk. pose proof four_decimal_range_stable as H.
  rewrite forallb_forall in H. apply H. apply in_count_up. lia.
Qed.

Section LexiconProperties.

Variable ul : UnicodeLower.

(** On the lexicon path the label is read off the compound score and the
    score is the compound score rounded. *)
Lemma analyze_sentiment_lexicon (a : SentimentIntensityAnalyzer)
    (payload : SentimentIn) :
  strip (text payload) <> [] ->
  let compound :=
    dict_get (polarity_scores a (strip (text payload))) (py "compound") 0.0 in
  analyze_sentiment ul (Some a) payload =
    {| label := threshold_label compound; score := py_round compound 4 |}.
Proof.
  intros Hne. unfold analyze_sentiment.
  destruct (strip (text payload)) as [|c t]; [congruence | reflexivity].
Qed.

(** C2: on the lexicon path, with an analyzer whose compound score is a
    four-decimal number of [-1, 1], the score returned for a text that
    is not empty after trimming is the compound score rounded to 4
    decimals (0.0 for a blank text, where the analyzer is not asked),
    and for every text the label is the one the thresholding rule gives
    for the returned score: at least 0.2 POSITIVE, at most -0.2
    NEGATIVE, otherwise NEUTRAL. *)
Theorem lexicon_score_and_label (a : SentimentIntensityAnalyzer)
    (payload : SentimentIn) :
  let t := strip (text payload) in
  let compound := dict_get (polarity_scores a t) (py "compound") 0.0 in
  let r := analyze_sentiment ul (Some a) payload in
  four_decimal compound ->
  score r = match t with
            | [] => 0.0
            | _ :: _ => py_round compound 4
            end /\
  label r = threshold_label (score r).
Proof.
  intros t compound r [k [Hk Hc]]. subst r.
  destruct t as [|c0 t0] eqn:Et; subst t.
  - unfold analyze_sentiment. rewrite Et. split; reflexivity.
  - assert (Hne : strip (text payload) <> []) by (rewrite Et; discriminate).
    rewrite (analyze_sentiment_lexicon a payload Hne). cbv zeta.
    rewrite Et. fold compound. cbn [score label]. split; [reflexivity|].
    rewrite Hc. apply Label_eqb_eq.
    exact (four_decimal_labels_stable Hk).
Qed.

End LexiconProperties.

(** The thresholds at their boundary values: 0.2 is POSITIVE, -0.2 is
    NEGATIVE, 0.19 is NEUTRAL, and rounding leaves all three unchanged. *)
Lemma threshold_boundaries :
  threshold_label 0.2 = POSITIVE /\ threshold_label (-0.2) = NEGATIVE /\
  threshold_label 0.19 = NEUTRAL /\
  py_round 0.2 4 = 0.2 /\ py_round (-0.2) 4 = -0.2 /\ py_round 0.19 4 = 0.19.
Proof. vm_compute. repeat split. Qed.

(* ================================================================= *)
(** ** The vibe note generator *)

Lemma all_distinct_NoDup (l : list str) : all_distinct l = true -> NoDup l.
Proof.
  induction l as [|x l IH]; simpl; [constructor|].
  intros H. apply andb_true_iff in H as [Hx Hl].
  constructor; [|auto].
  intros Hin. apply negb_true_iff in Hx.
  assert (Hex : existsb (str_eqb x) l = true).
  { apply existsb_exists. exists x. split; [exact Hin|].
    clear. induction x as [|c x IHx]; simpl; [reflexivity|].
    now rewrite N.eqb_refl. }
  congruence.
Qed.

(** An [if]/[elif] chain of five tests picks the value of the first
    test that holds. *)
Section FirstMatch.

Variable A : Type.
Variables b1 b2 b3 b4 b5 : bool.
Variables P1 P2 P3 P4 P5 : Prop.
Variables x1 x2 x3 x4 x5 x6 : A.
Hypothesis H1 : b1 = true <-> P1.
Hypothesis H2 : b2 = true <-> P2.
Hypothesis H3 : b3 = true <-> P3.
Hypothesis H4 : b4 = true <-> P4.
Hypothesis H5 : b5 = true <-> P5.

Lemma first_match_wins :
  let r := if b1 then x1 else if b2 then x2 else if b3 then x3
           else if b4 then x4 else if b5 then x5 else x6 in
  (P1 -> r = x1) /\
  (~ P1 -> P2 -> r = x2) /\
  (~ P1 -> ~ P2 -> P3 -> r = x3) /\
  (~ P1 -> ~ P2 -> ~ P3 -> P4 -> r = x4) /\
  (~ P1 -> ~ P2 -> ~ P3 -> ~ P4 -> P5 -> r = x5) /\
  (~ P1 -> ~ P2 -> ~ P3 -> ~ P4 -> ~ P5 -> r = x6).
Proof.
  cbv zeta. rewrite <- H1, <- H2, <- H3, <- H4, <- H5. clear.
  destruct b1, b2, b3, b4, b5; repeat split; intros;
    first [reflexivity | congruence].
Qed.

End FirstMatch.

Lemma str_in_either (w1 w2 s1 s2 : str) :
  str_in w1 s1 || str_in w2 s2 = true <-> Substring w1 s1 \/ Substring w2 s2.
Proof. now rewrite orb_true_iff, !str_in_Substring. Qed.

Lemma weather_phrase_priority (wm wd : str) :
  weather_priority wm wd (weather_phrase wm wd).
Proof.
  unfold weather_priority, weather_phrase.
  apply first_match_wins;
    first [apply str_in_either | apply str_in_Substring].
Qed.

Lemma weather_phrase_in (wm wd : str) :
  In (weather_phrase wm wd) weather_phrases.
Proof.
  unfold weather_phrase, weather_phrases.
  repeat match goal with
  | |- context [if ?b then _ else _] => destruct b
  end; simpl; auto 10.
Qed.

Lemma mood_phrase_in (m : str) : In (mood_phrase m) mood_phrases.
Proof.
  unfold mood_phrase, mood_phrases.
  repeat match goal with
  | |- context [if ?b then _ else _] => destruct b
  end; simpl; auto 10.
Qed.

Section VibeProperties.

Variable ul : UnicodeLower.

Lemma vibe_note_is_template (payload : VibeIn) :
  vibe_note ul payload =
    template (weather_phrase (lower ul (or_empty (weather_main payload)))
                             (lower ul (or_empty (weather_desc payload))))
             (mood_phrase (lower ul (strip (mood payload)))).
Proof. reflexivity. Qed.

Lemma sample_payloads_notes : map (vibe_note ul) sample_payloads = all_notes.
Proof. vm_compute. reflexivity. Qed.

(** C4: the note is "Today, {weather_phrase}; {mood_phrase}." where the
    weather phrase is chosen on the lower-cased inputs (absent read as
    empty) in the order rain/drizzle, cloud/overcast, clear, snow,
    storm/thunder, generic, the first match winning; mood "happy" with
    weather "light rain" gives the rain phrase and the happy phrase. *)
Theorem vibe_note_template_and_priority :
  (forall payload : VibeIn,
     exists wp : str,
       weather_priority (lower ul (or_empty (weather_main payload)))
                        (lower ul (or_empty (weather_desc payload))) wp /\
       vibe_note ul payload =
         py "Today, " ++ wp ++ py "; "
         ++ mood_phrase (lower ul (strip (mood payload))) ++ py ".")
  /\ (forall m wm,
        vibe_note ul {| mood := m; weather_main := wm; weather_desc := None |}
        = vibe_note ul {| mood := m; weather_main := wm;
                          weather_desc := Some [] |})
  /\ (forall m wd,
        vibe_note ul {| mood := m; weather_main := None; weather_desc := wd |}
        = vibe_note ul {| mood := m; weather_main := Some [];
                          weather_desc := wd |})
  /\ vibe_note ul {| mood := py "happy"; weather_main := Some (py "light rain");
                     weather_desc := Some (py "") |}
     = py "Today, " ++ rain_phrase ++ py "; " ++ happy_phrase ++ py "."
  /\ py "Today, " ++ rain_phrase ++ py "; " ++ happy_phrase ++ py "."
     = py "Today, the rhythm of the rain sets a calm tempo; your energy feels bright and contagious.".
Proof.
  split; [|repeat split; try reflexivity; vm_compute; reflexivity].
  intros payload.
  exists (weather_phrase (lower ul (or_empty (weather_main payload)))
                         (lower ul (or_empty (weather_desc payload)))).
  split; [apply weather_phrase_priority | reflexivity].
Qed.

(** C9: every note is one of 24 fixed sentences, the template applied to
    one of 6 weather phrases and one of 4 mood phrases; the 24 are
    distinct, each starts with "Today, ", ends with "." and is not
    empty, and each is the note of some request. *)
Theorem vibe_note_range :
  (forall payload : VibeIn,
     exists wp mp, In wp weather_phrases /\ In mp mood_phrases /\
                   vibe_note ul payload = template wp mp) /\
  (forall payload : VibeIn, In (vibe_note ul payload) all_notes) /\
  List.length weather_phrases = 6%nat /\
  List.length mood_phrases = 4%nat /\
  List.length all_notes = 24%nat /\
  NoDup all_notes /\
  Forall (fun note => startswith (py "Today, ") note = true /\
                      endswith (py ".") note = true /\
                      note <> []) all_notes /\
  Forall (fun note => exists payload, vibe_note ul payload = note) all_notes.
Proof.
  assert (Hform : forall payload : VibeIn,
            exists wp mp, In wp weather_phrases /\ In mp mood_phrases /\
                          vibe_note ul payload = template wp mp).
  { intros payload. eexists _, _.
    split; [apply weather_phrase_in|].
    split; [apply mood_phrase_in | apply vibe_note_is_template]. }
  split; [exact Hform|].
  split.
  { intros payload. destruct (Hform payload) as [wp [mp [Hw [Hm ->]]]].
    unfold all_notes. apply in_flat_map. exists wp. split; [exact Hw|].
    now apply in_map. }
  repeat split; try reflexivity.
  - apply all_distinct_NoDup. vm_compute. reflexivity.
  - apply Forall_forall. intros note Hin.
    assert (Hb : forallb (fun note => startswith (py "Today, ") note
                                      && endswith (py ".") note
                                      && negb (str_eqb note []))
                         all_notes = true) by (vm_compute; reflexivity).
    rewrite forallb_forall in Hb. specialize (Hb note Hin).
    apply andb_true_iff in Hb as [Hb H3]. apply andb_true_iff in Hb as [H1 H2].
    repeat split; try assumption.
    intros ->. discriminate.
  - rewrite <- sample_payloads_notes. apply Forall_forall.
    intros note Hin. apply in_map_iff in Hin as [payload [Hp _]].
    now exists payload.
Qed.

End VibeProperties.

(* ================================================================= *)
(** ** The weather adapter *)

Lemma silent_ret {A} (a : A) : silent (ret a).
Proof. intros sent. reflexivity. Qed.

Lemma silent_raise {A} (e : Weather.exn) : silent (raise e : Weather.W A).
Proof. intros sent. reflexivity. Qed.

Lemma silent_lift {A} (o : outcome Weather.exn A) : silent (lift o).
Proof. intros sent. reflexivity. Qed.

Lemma silent_bind {A B} (c : Weather.W A) (k : A -> Weather.W B) :
  silent c -> (forall a, silent (k a)) -> silent (bind c k).
Proof.
  intros Hc Hk sent. unfold bind. specialize (Hc sent).
  destruct (c sent) as [[a|e] s']; simpl in Hc; subst s'.
  - apply Hk.
  - reflexivity.
Qed.

Lemma silent_get (v : Weather.Json) (key : str) (default : Weather.Json) :
  silent (Weather.get v key default).
Proof. destruct v; intros sent; reflexivity. Qed.

Lemma silent_item0 (v : Weather.Json) : silent (Weather.item0 v).
Proof.
  destruct v as [| | | |s|l|d]; try (intros sent; reflexivity).
  - destruct s; intros sent; reflexivity.
  - destruct l; intros sent; reflexivity.
Qed.

Create HintDb silent.
#[local] Hint Resolve silent_ret silent_raise silent_lift silent_get
  silent_item0 : silent.

(** C6: when neither the parameter nor the process environment holds an
    API key (absent or empty), every city is answered with the HTTP 500
    error about the missing key and the list of outbound requests is
    left as it was: no network call is made. *)
Theorem get_weather_without_key
    (environ : Environ)
    (network : Weather.Request -> outcome Weather.exn Weather.Response)
    (city : str) (api_key : option str) (sent : list Weather.Request) :
  truthy api_key = false ->
  truthy (environ (py "OPENWEATHER_API_KEY")) = false ->
  Weather.get_weather environ network city api_key sent =
    (Raise (Weather.HTTPException 500
       (py "OPENWEATHER_API_KEY not set on server; provide ?api_key=...")),
     sent).
Proof.
  intros Hk He. unfold Weather.get_weather. rewrite Hk.
  destruct (environ (py "OPENWEATHER_API_KEY")) as [[|c k]|];
    [reflexivity | discriminate | reflexivity].
Qed.

(** With a key, exactly one request goes out, to the provider's URL,
    whatever the provider answers. *)
Lemma get_weather_with_key_calls_once
    (environ : Environ)
    (network : Weather.Request -> outcome Weather.exn Weather.Response)
    (city key : str) (sent : list Weather.Request) :
  key <> [] ->
  snd (Weather.get_weather environ network city (Some key) sent) =
    sent ++ [ {| Weather.url :=
                   py "https://api.openweathermap.org/data/2.5/weather";
                 Weather.params := [ (py "q", city); (py "appid", key);
                                     (py "units", py "metric") ];
                 Weather.timeout := 12 |} ].
Proof.
  intros Hkey. unfold Weather.get_weather.
  destruct key as [|c key]; [congruence|]. cbn [truthy].
  unfold try_except, bind at 1, Weather.requests_get.
  set (req := {| Weather.url := _ |}).
  destruct (network req) as [r|e].
  - destruct (negb (Weather.status_code r =? 200)%Z); [reflexivity|].
    match goal with
    | |- snd (match ?c ?s with _ => _ end) = _ =>
        assert (Hs : silent c)
          by (repeat (apply silent_bind; [auto with silent | intros ?]);
              auto with silent);
        specialize (Hs s); destruct (c s) as [[a|[st d|msg|cls]] s'];
        simpl in Hs; subst s'; reflexivity
    end.
  - destruct e; reflexivity.
Qed.

(* ================================================================= *)
(** ** The diagnostics report *)

Section DiagnosticsProperties.

Import Diagnostics.

Variable import_db : outcome exn (option Database).
Variable environ : Environ.

Ltac step :=
  cbv beta iota zeta
      delta [try_except bind lift modify ret raise get_state fst].

Ltac run_probes :=
  unfold test_database, probe_database, check_environment, expected_database,
         probes_raise_Exception;
  destruct import_db as [[db|]|[m|m|m]]; step;
  [ destruct (name db) as [|v|[m|m|m]]; step;
    destruct (list_collection_names db) as [cs|[m'|m'|m']]; step | .. ];
  cbn [is_Exception].

(** C7, as the code has it: when what the probes raise (the import,
    the lookup of the handle's name, the collection listing) is an
    instance of class [Exception], the diagnostics handler returns a
    report: it has the liveness line, a status string for the database
    that tells the failure, and at most ten collection names.  The
    handler never lets an instance of [Exception] out: what leaves it,
    if anything, is an exception outside that class. *)
Theorem test_database_never_raises :
  (probes_raise_Exception import_db ->
   exists r : Report,
     test_database import_db environ = Return r /\
     backend r = ok_mark ++ py " Running" /\
     database r = expected_database import_db /\
     (List.length (collections r) <= 10)%nat) /\
  (forall e, test_database import_db environ = Raise e -> ~ is_Exception e).
Proof.
  split.
  - run_probes; intros Hcatch; try contradiction;
      (eexists; split; [reflexivity|]; repeat split;
       cbn [collections set_collections set_database set_database_url
            set_database_name set_connection_status initial_response
            List.length slice_to];
       try lia; apply firstn_le_length).
  - run_probes; intros e He; try discriminate;
      injection He as <-; cbn [is_Exception]; tauto.
Qed.

(** C10: in the returned report [database_url] and [database_name] are
    "Set" or "Not Set" marks decided by the environment variables
    DATABASE_URL and DATABASE_NAME alone (a variable counts as set when
    it has a non-empty value); what the probe stored in the two fields
    is gone, whatever the probe's outcome.  A report is returned
    whenever what the probes raise is an instance of [Exception]. *)
Theorem environment_fields_overwrite_probe :
  probes_raise_Exception import_db ->
  exists r : Report,
    test_database import_db environ = Return r /\
    database_url r =
      Some (if truthy (environ (py "DATABASE_URL"))
            then ok_mark ++ py " Set" else no_mark ++ py " Not Set") /\
    database_name r =
      Some (if truthy (environ (py "DATABASE_NAME"))
            then ok_mark ++ py " Set" else no_mark ++ py " Not Set").
Proof.
  run_probes; intros Hcatch; try contradiction;
    (eexists; split; [reflexivity|]; split; reflexivity).
Qed.

End DiagnosticsProperties.

(** The probe does store its own values in the two fields when a handle
    is there: they are what the final assignments replace. *)
Lemma probe_assigns_fields (db : Diagnostics.Database) (v : str) :
  Diagnostics.name db = Diagnostics.Value v ->
  let r := snd (Diagnostics.probe_database (Return (Some db))
                  Diagnostics.initial_response) in
  Diagnostics.database_url r
    = Some (Diagnostics.ok_mark ++ py " Configured") /\
  Diagnostics.database_name r = Some v.
Proof.
  intros Hn. unfold Diagnostics.probe_database.
  cbv [try_except bind lift modify]. rewrite Hn. cbv [ret].
  destruct (Diagnostics.list_collection_names db) as [cs|[m|m|m]];
    split; reflexivity.
Qed.

(* ================================================================= *)
(** ** Concrete runs *)

Lemma fallback_classification_witness :
  let payload := {| text := py "  So HAPPY :) but sad " |} in
  strip (text payload) <> [] /\
  exists p n : Z,
    keyword_count (lower ascii_only (strip (text payload))) positives p /\
    keyword_count (lower ascii_only (strip (text payload))) negatives n /\
    let r := analyze_sentiment ascii_only None payload in
    ((p > n)%Z ->
       label r = POSITIVE /\
       score r = py_min 1.0 (0.6 + 0.1 * float_of_int (p - n))) /\
    ((n > p)%Z ->
       label r = NEGATIVE /\
       score r = py_min 1.0 (0.6 + 0.1 * float_of_int (n - p))) /\
    (p = n -> label r = NEUTRAL /\ score r = 0.5).
Proof.
  intros payload.
  assert (H : strip (text payload) <> []) by (vm_compute; discriminate).
  split; [exact H|].
  exact (proj1 (fallback_classification ascii_only) payload H).
Defined.

Lemma fallback_score_bounds_witness :
  let payload := {| text := py "  So HAPPY :) but sad " |} in
  strip (text payload) <> [] /\
  keyword_count (lower ascii_only (strip (text payload))) positives 2 /\
  keyword_count (lower ascii_only (strip (text payload))) negatives 1 /\
  let r := analyze_sentiment ascii_only None payload in
  ((2 <> 1)%Z -> leb 0 (score r) = true /\ leb (score r) 1 = true) /\
  ((2 = 1)%Z -> score r = 0.5).
Proof.
  intros payload.
  assert (H : strip (text payload) <> []) by (vm_compute; discriminate).
  pose proof (keyword_count_sum_bool
                (lower ascii_only (strip (text payload))) positives) as Hp.
  pose proof (keyword_count_sum_bool
                (lower ascii_only (strip (text payload))) negatives) as Hn.
  vm_compute sum_bool in Hp, Hn.
  repeat (split; [assumption|]).
  exact (fallback_score_bounds ascii_only payload H Hp Hn).
Defined.

Lemma blank_text_is_neutral_witness :
  let payload := {| text := py "  " ++ [0x09; 0x0A; 0xA0; 0x3000]%N |} in
  forallb is_space (text payload) = true /\
  analyze_sentiment ascii_only (Some glad_analyzer) payload
    = {| label := NEUTRAL; score := 0.0 |} /\
  analyze_sentiment ascii_only None payload
    = {| label := NEUTRAL; score := 0.0 |}.
Proof.
  intros payload.
  assert (H : forallb is_space (text payload) = true) by reflexivity.
  split; [exact H|].
  split; apply blank_text_is_neutral; exact H.
Defined.

Lemma lexicon_score_and_label_witness :
  let payload := {| text := py "what a lovely day" |} in
  four_decimal
    (dict_get (polarity_scores glad_analyzer (strip (text payload)))
              (py "compound") 0.0) /\
  let r := analyze_sentiment ascii_only (Some glad_analyzer) payload in
  score r = py_round 0.6369 4 /\
  label r = threshold_label (score r).
Proof.
  intros payload.
  assert (H : four_decimal
                (dict_get (polarity_scores glad_analyzer
                             (strip (text payload))) (py "compound") 0.0)).
  { exists 6369%Z. split; [lia | vm_compute; reflexivity]. }
  split; [exact H|].
  exact (lexicon_score_and_label ascii_only glad_analyzer payload H).
Defined.

Lemma vibe_note_template_and_priority_witness :
  let payload := {| mood := py "Happy"; weather_main := Some (py "Light Rain");
                    weather_desc := None |} in
  Substring (py "rain") (lower ascii_only (or_empty (weather_main payload))) /\
  exists wp : str,
    wp = rain_phrase /\
    vibe_note ascii_only payload =
      py "Today, " ++ wp ++ py "; "
      ++ mood_phrase (lower ascii_only (strip (mood payload))) ++ py ".".
Proof.
  intros payload.
  assert (H : Substring (py "rain")
                (lower ascii_only (or_empty (weather_main payload))))
    by (apply str_in_Substring; reflexivity).
  split; [exact H|].
  destruct (proj1 (vibe_note_template_and_priority ascii_only) payload)
    as [wp [Hprio Hnote]].
  exists wp. split; [|exact Hnote].
  apply (proj1 Hprio). left. exact H.
Defined.

Lemma get_weather_without_key_witness :
  truthy (Some []) = false /\
  truthy (empty_environ (py "OPENWEATHER_API_KEY")) = false /\
  Weather.get_weather empty_environ dead_network (py "Paris") (Some []) [] =
    (Raise (Weather.HTTPException 500
       (py "OPENWEATHER_API_KEY not set on server; provide ?api_key=...")),
     []).
Proof.
  split; [reflexivity|]. split; [reflexivity|].
  apply get_weather_without_key; reflexivity.
Defined.

(** A keyword that occurs twice counts once: two times "happy" is one
    positive keyword. *)
Example repeated_keyword_counts_once :
  analyze_sentiment ascii_only None {| text := py "happy happy" |}
  = {| label := POSITIVE; score := 0.7 |}.
Proof. vm_compute. reflexivity. Qed.

(** Matching is by substring: "badge" has the negative keyword "bad". *)
Example substring_not_word :
  analyze_sentiment ascii_only None {| text := py "a new badge" |}
  = {| label := NEGATIVE; score := 0.7 |}.
Proof. vm_compute. reflexivity. Qed.

(** A dictionary without a compound entry reads as compound 0.0. *)
Example missing_compound_defaults :
  analyze_sentiment ascii_only (Some silent_analyzer) {| text := py "fine" |}
  = {| label := NEUTRAL; score := 0.0 |}.
Proof. vm_compute. reflexivity. Qed.

Example negative_text :
  analyze_sentiment ascii_only None {| text := py "this is bad and terrible" |}
  = {| label := NEGATIVE; score := 0.8 |}.
Proof. vm_compute. reflexivity. Qed.

Example default_note :
  vibe_note ascii_only {| mood := []; weather_main := Some [];
                          weather_desc := Some [] |}
  = template generic_phrase default_phrase.
Proof. vm_compute. reflexivity. Qed.

(** With a key the request goes out; a time-out comes back as a 500. *)
Example weather_timeout :
  Weather.get_weather empty_environ dead_network (py "Paris")
    (Some (py "k3y")) []
  = (Raise (Weather.HTTPException 500 (py "Read timed out.")),
     [ {| Weather.url := py "https://api.openweathermap.org/data/2.5/weather";
          Weather.params := [ (py "q", py "Paris"); (py "appid", py "k3y");
                              (py "units", py "metric") ];
          Weather.timeout := 12 |} ]).
Proof. vm_compute. reflexivity. Qed.

(** A handle whose listing fails, with DATABASE_URL set to the empty
    string and DATABASE_NAME to a name. *)
Example diagnostics_run :
  Diagnostics.test_database (Return (Some broken_database)) database_environ
  = Return
      {| Diagnostics.backend := Diagnostics.ok_mark ++ py " Running";
         Diagnostics.database :=
           Diagnostics.warn_mark
           ++ py "  Connected but Error: ServerSelectionTimeoutError";
         Diagnostics.database_url := Some (Diagnostics.no_mark ++ py " Not Set");
         Diagnostics.database_name := Some (Diagnostics.ok_mark ++ py " Set");
         Diagnostics.connection_status := py "Connected";
         Diagnostics.collections := [] |}.
Proof. vm_compute. reflexivity. Qed.

(* ================================================================= *)
(** ** More on the weather adapter *)

Section WeatherRun.

Import Weather.

Variable environ : Environ.
Variable network : Request -> outcome exn Response.
Variables city key : str.
Variable api_key : option str.
Variable sent : list Request.

Hypothesis Hkey : resolve_key environ api_key = Some key.
Hypothesis Hne : key <> [].

Ltac send :=
  unfold get_weather; unfold resolve_key in Hkey; rewrite Hkey;
  destruct key as [|c0 key0]; [congruence|];
  unfold try_except, requests_get; unfold bind at 1;
  fold (weather_request city (c0 :: key0)).

(** X1: once a key is found (the parameter when it is non-empty, else
    the environment variable), exactly one request goes out, whatever
    comes back: a GET of the provider's URL with q = city, appid = key,
    units = metric and a timeout of 12. *)
Theorem get_weather_sends_one_request :
  snd (get_weather environ network city api_key sent)
  = sent ++ [weather_request city key].
Proof.
  send.
  destruct (network (weather_request city (c0 :: key0))) as [r|e].
  - destruct (negb (status_code r =? 200)%Z); [reflexivity|].
    match goal with
    | |- snd (match ?c ?s with _ => _ end) = _ =>
        assert (Hs : silent c)
          by (repeat (apply silent_bind; [auto with silent | intros ?]);
              auto with silent);
        specialize (Hs s); destruct (c s) as [[a|[st d|msg|cls]] s'];
        simpl in Hs; subst s'; reflexivity
    end.
  - destruct e; reflexivity.
Qed.

(** X3: an answer whose status is not 200 is passed on as an
    HTTPException with the provider's status code and body text; the
    JSON of the body is not looked at. *)
Theorem get_weather_provider_error (r : Response) :
  network (weather_request city key) = Return r ->
  status_code r <> 200%Z ->
  fst (get_weather environ network city api_key sent)
  = Raise (HTTPException (status_code r) (text r)).
Proof.
  intros Hnet Hst. send. rewrite Hnet.
  apply Z.eqb_neq in Hst. rewrite Hst. reflexivity.
Qed.

(** X4: an exception of the network call, or of decoding the body of a
    200 answer, comes out as HTTPException 500 with the exception's
    text as detail. *)
Theorem get_weather_wraps_exceptions (msg : str) :
  network (weather_request city key) = Raise (Exception msg) \/
  (exists r, network (weather_request city key) = Return r /\
             status_code r = 200%Z /\ json r = Raise (Exception msg)) ->
  fst (get_weather environ network city api_key sent)
  = Raise (HTTPException 500 msg).
Proof.
  intros [Hnet | [r [Hnet [Hst Hjs]]]]; send; rewrite Hnet.
  - reflexivity.
  - rewrite Hst. cbn [Z.eqb Pos.eqb negb]. unfold bind at 1, lift.
    rewrite Hjs. reflexivity.
Qed.

(** X6: a 200 answer whose body is JSON but not an object (null, a
    number, a string, a list, ...) gives HTTPException 500 with the
    attribute error of the first [data.get]. *)
Theorem get_weather_body_not_object (r : Response) (data : Json) :
  network (weather_request city key) = Return r ->
  status_code r = 200%Z ->
  json r = Return data ->
  (forall d, data <> JDict d) ->
  fst (get_weather environ network city api_key sent)
  = Raise (HTTPException 500
             (py "'" ++ type_name data
              ++ py "' object has no attribute 'get'")).
Proof.
  intros Hnet Hst Hjs Hd. send. rewrite Hnet, Hst.
  cbn [Z.eqb Pos.eqb negb]. unfold bind at 1, lift. rewrite Hjs.
  destruct data; try reflexivity. now destruct (Hd d).
Qed.

(** X5: a 200 answer whose body is an object in which [sys], [main] and
    [wind] are objects or missing, and [weather] is missing, null, empty
    or a list that starts with an object, is flattened into the result:
    each field is the nested entry, or None where the entry is
    missing. *)
Theorem get_weather_normalizes (r : Response)
    (d sys main wind first : list (str * Json)) (rest : list Json) :
  network (weather_request city key) = Return r ->
  status_code r = 200%Z ->
  json r = Return (JDict d) ->
  dict_get d (py "sys") (JDict []) = JDict sys ->
  dict_get d (py "main") (JDict []) = JDict main ->
  dict_get d (py "wind") (JDict []) = JDict wind ->
  py_or (dict_get d (py "weather") JNone) (JList [JDict []])
    = JList (JDict first :: rest) ->
  fst (get_weather environ network city api_key sent)
  = Return {| Weather.city := dict_get d (py "name") JNone;
              country := dict_get sys (py "country") JNone;
              temp := dict_get main (py "temp") JNone;
              feels_like := dict_get main (py "feels_like") JNone;
              humidity := dict_get main (py "humidity") JNone;
              wind := dict_get wind (py "speed") JNone;
              Weather.weather_main := dict_get first (py "main") JNone;
              Weather.weather_desc := dict_get first (py "description") JNone;
              icon := dict_get first (py "icon") JNone |}.
Proof.
  intros Hnet Hst Hjs Hsys Hmain Hwind Hweather. send. rewrite Hnet, Hst.
  cbn [Z.eqb Pos.eqb negb]. unfold bind at 1, lift. rewrite Hjs.
  cbv beta iota delta [bind get ret].
  rewrite Hsys, Hmain, Hwind, Hweather. reflexivity.
Qed.

End WeatherRun.

(** X2: for every key, city, environment and network, [get_weather]
    never raises an instance of class [Exception] other than an
    HTTPException: it returns a result, raises an HTTPException, or
    lets through an exception outside class [Exception]
    (KeyboardInterrupt, SystemExit), which no [except] clause of it
    catches. *)
Theorem get_weather_converts_exceptions
    (environ : Environ)
    (network : Weather.Request -> outcome Weather.exn Weather.Response)
    (city : str) (api_key : option str) (sent : list Weather.Request) :
  no_plain_exception
    (fst (Weather.get_weather environ network city api_key sent)).
Proof.
  unfold Weather.get_weather.
  destruct (if truthy api_key then api_key
            else environ (py "OPENWEATHER_API_KEY")) as [[|c k]|];
    try exact I.
  unfold try_except.
  match goal with
  | |- no_plain_exception (fst (match ?b with _ => _ end)) =>
      destruct b as [[a|[st d|msg|cls]] s']; exact I
  end.
Qed.

(* ================================================================= *)
(** ** Stripping and lower-casing, continued *)

Lemma lstrip_app_spaces (l s : str) :
  forallb is_space l = true -> lstrip (l ++ s) = lstrip s.
Proof.
  induction l as [|c l IH]; simpl; [reflexivity|].
  intros H. apply andb_true_iff in H as [Hc Hl]. rewrite Hc. auto.
Qed.

Lemma lstrip_app_solid (s r : str) (c : codepoint) (t : str) :
  lstrip s = c :: t -> lstrip (s ++ r) = (c :: t) ++ r.
Proof.
  induction s as [|x s IH]; simpl; [discriminate|].
  destruct (is_space x); [exact IH|].
  intros H. injection H as -> ->. reflexivity.
Qed.

Lemma rstrip_app_spaces (s r : str) :
  forallb is_space r = true -> rstrip (s ++ r) = rstrip s.
Proof.
  intros H. unfold rstrip. rewrite rev_app_distr, lstrip_app_spaces;
    [reflexivity | now rewrite forallb_rev].
Qed.

(** White space around a string does not survive [strip]. *)
Lemma strip_padding (l s r : str) :
  forallb is_space l = true -> forallb is_space r = true ->
  strip (l ++ s ++ r) = strip s.
Proof.
  intros Hl Hr. unfold strip. rewrite (lstrip_app_spaces l _ Hl).
  pose proof (lstrip_head s) as Hs.
  destruct (lstrip s) as [|c t] eqn:E.
  - rewrite lstrip_spaces; [reflexivity|].
    rewrite forallb_app, Hs, Hr. reflexivity.
  - rewrite (lstrip_app_solid s r E). now apply rstrip_app_spaces.
Qed.

Lemma lower_from_ascii (ul : UnicodeLower) (s before : str) :
  forallb is_ascii s = true ->
  lower_from ul before s = map ascii_lower s.
Proof.
  revert before. induction s as [|c s IH]; intros before; simpl;
    [reflexivity|].
  intros H. apply andb_true_iff in H as [Hc Hs].
  rewrite Hc. simpl. now rewrite IH.
Qed.

Lemma is_space_ascii_lower (c : codepoint) :
  is_space (ascii_lower c) = is_space c.
Proof.
  unfold ascii_lower.
  destruct ((0x41 <=? c) && (c <=? 0x5A))%N eqn:E; [|reflexivity].
  apply andb_true_iff in E as [E1 E2].
  apply N.leb_le in E1, E2.
  assert (Hn : forall x, (0x41 <= x <= 0x7A)%N -> is_space x = false).
  { intros x Hx. unfold is_space.
    replace (x <=? 0x0D)%N with false by (symmetry; apply N.leb_gt; lia).
    replace (x <=? 0x20)%N with false by (symmetry; apply N.leb_gt; lia).
    replace (x =? 0x85)%N with false by (symmetry; apply N.eqb_neq; lia).
    replace (x =? 0xA0)%N with false by (symmetry; apply N.eqb_neq; lia).
    replace (x =? 0x1680)%N with false by (symmetry; apply N.eqb_neq; lia).
    replace (0x2000 <=? x)%N with false by (symmetry; apply N.leb_gt; lia).
    replace (x =? 0x2028)%N with false by (symmetry; apply N.eqb_neq; lia).
    replace (x =? 0x2029)%N with false by (symmetry; apply N.eqb_neq; lia).
    replace (x =? 0x202F)%N with false by (symmetry; apply N.eqb_neq; lia).
    replace (x =? 0x205F)%N with false by (symmetry; apply N.eqb_neq; lia).
    replace (x =? 0x3000)%N with false by (symmetry; apply N.eqb_neq; lia).
    now rewrite !andb_false_r. }
  rewrite !Hn; [reflexivity | lia | lia].
Qed.

Lemma lstrip_map_lower (s : str) :
  lstrip (map ascii_lower s) = map ascii_lower (lstrip s).
Proof.
  induction s as [|c s IH]; simpl; [reflexivity|].
  rewrite is_space_ascii_lower. destruct (is_space c); [exact IH | reflexivity].
Qed.

Lemma strip_map_lower (s : str) :
  strip (map ascii_lower s) = map ascii_lower (strip s).
Proof.
  unfold strip, rstrip.
  now rewrite lstrip_map_lower, <- map_rev, lstrip_map_lower, map_rev.
Qed.

Lemma forallb_lstrip (f : codepoint -> bool) (s : str) :
  forallb f s = true -> forallb f (lstrip s) = true.
Proof.
  induction s as [|c s IH]; simpl; [reflexivity|].
  intros H. destruct (is_space c); [|exact H].
  apply andb_true_iff in H as [_ Hs]. auto.
Qed.

Lemma forallb_strip (f : codepoint -> bool) (s : str) :
  forallb f s = true -> forallb f (strip s) = true.
Proof.
  intros H. unfold strip, rstrip.
  rewrite forallb_rev. apply forallb_lstrip.
  rewrite forallb_rev. now apply forallb_lstrip.
Qed.

(** Lower-casing the trimmed text gives the same for two ASCII strings
    that differ in case only. *)
Lemma lower_strip_same_letters (ul : UnicodeLower) (s t : str) :
  same_letters s t -> lower ul (strip s) = lower ul (strip t).
Proof.
  intros [Hs [Ht Hst]]. unfold lower.
  rewrite !lower_from_ascii by now apply forallb_strip.
  now rewrite <- !strip_map_lower, Hst.
Qed.

Lemma lower_same_letters (ul : UnicodeLower) (s t : str) :
  same_letters s t -> lower ul s = lower ul t.
Proof.
  intros [Hs [Ht Hst]]. unfold lower.
  now rewrite !lower_from_ascii.
Qed.

Lemma strip_nil_same_letters (s t : str) :
  same_letters s t -> strip s = [] -> strip t = [].
Proof.
  intros [_ [_ Hst]] H.
  assert (E : map ascii_lower (strip t) = []).
  { now rewrite <- strip_map_lower, <- Hst, strip_map_lower, H. }
  now destruct (strip t).
Qed.

Lemma same_letters_sym (s t : str) : same_letters s t -> same_letters t s.
Proof. intros [Hs [Ht Hst]]. repeat split; auto. Qed.

Lemma str_eqb_eq (a b : str) : str_eqb a b = true -> a = b.
Proof.
  revert b. induction a as [|x a IH]; intros [|y b]; simpl;
    try discriminate; [reflexivity|].
  intros H. apply andb_true_iff in H as [Hx Hab].
  apply N.eqb_eq in Hx. subst y. f_equal. auto.
Qed.

Lemma dict_get_absent {V} (d : list (str * V)) (k : str) (default : V) :
  absent k d -> dict_get d k default = default.
Proof.
  unfold absent. induction d as [|[k' v] d IH]; simpl; [reflexivity|].
  intros H. destruct (str_eqb k' k) eqn:E.
  - apply str_eqb_eq in E. subst k'. destruct (H v). now left.
  - apply IH. intros v' Hin. apply (H v'). now right.
Qed.

(** The score of the keyword heuristic at each difference of counts. *)
Lemma fallback_score_table (d : Z) :
  (1 <= d <= 11)%Z ->
  let x := py_min 1.0 (0.6 + 0.1 * float_of_int d) in
  In x fallback_scores /\ ((4 <= d)%Z -> x = 1.0) /\ x <> 0.5.
Proof.
  intros Hd.
  assert (H : (d = 1 \/ d = 2 \/ d = 3 \/ d = 4 \/ d = 5 \/ d = 6 \/ d = 7
               \/ d = 8 \/ d = 9 \/ d = 10 \/ d = 11)%Z) by lia.
  assert (Hneq : forall x : float, PrimFloat.eqb x 0.5 = false -> x <> 0.5).
  { intros x Hx ->. vm_compute in Hx. discriminate. }
  repeat (destruct H as [-> | H]); try subst d; cbv zeta;
    (split; [vm_compute; tauto|]);
    (split; [intros H4; first [lia | vm_compute; reflexivity]
            | apply Hneq; vm_compute; reflexivity]).
Qed.

(* ================================================================= *)
(** ** More on the sentiment classifier *)

Section SentimentExtras.

Variable ul : UnicodeLower.

(** X7: white space before and after the text changes nothing, on
    either path: the classifier and the analyzer only ever see the
    trimmed text. *)
Theorem analyze_sentiment_ignores_padding
    (analyzer : option SentimentIntensityAnalyzer) (l s r : str) :
  forallb is_space l = true -> forallb is_space r = true ->
  analyze_sentiment ul analyzer {| text := l ++ s ++ r |}
  = analyze_sentiment ul analyzer {| text := s |}.
Proof.
  intros Hl Hr. unfold analyze_sentiment. cbn [text].
  now rewrite (strip_padding l s r Hl Hr).
Qed.

(** X8: on the fallback path two ASCII texts that differ only in the
    case of their letters get the same label and score. *)
Theorem fallback_ignores_case (s t : str) :
  same_letters s t ->
  analyze_sentiment ul None {| text := s |}
  = analyze_sentiment ul None {| text := t |}.
Proof.
  intros H. unfold analyze_sentiment. cbn [text].
  pose proof (lower_strip_same_letters ul H) as Hlow.
  pose proof (@strip_nil_same_letters s t H) as Hst.
  pose proof (@strip_nil_same_letters t s (same_letters_sym H)) as Hts.
  destruct (strip s) as [|c s'], (strip t) as [|c' t'].
  - reflexivity.
  - now specialize (Hst eq_refl).
  - now specialize (Hts eq_refl).
  - cbv zeta. now rewrite Hlow.
Qed.

(** X9: on the fallback path, for a text that is not empty after
    trimming, the score is one of 0.5, 0.7, 0.8, 0.9 and 1.0; it is 1.0
    as soon as the two keyword counts differ by four or more, and it is
    0.5 exactly when the label is NEUTRAL. *)
Theorem fallback_score_values (payload : SentimentIn) (p n : Z) :
  strip (text payload) <> [] ->
  keyword_count (lower ul (strip (text payload))) positives p ->
  keyword_count (lower ul (strip (text payload))) negatives n ->
  let r := analyze_sentiment ul None payload in
  In (score r) fallback_scores /\
  ((4 <= Z.abs (p - n))%Z -> score r = 1.0) /\
  (score r = 0.5 <-> label r = NEUTRAL).
Proof.
  intros Hne Hp Hn r. subst r.
  rewrite (analyze_sentiment_fallback ul payload Hne). cbv zeta.
  apply keyword_count_unique in Hp, Hn. rewrite <- Hp, <- Hn.
  assert (Bp : (0 <= p <= 11)%Z)
    by (rewrite Hp; apply (sum_bool_bounds _ positives)).
  assert (Bn : (0 <= n <= 11)%Z)
    by (rewrite Hn; apply (sum_bool_bounds _ negatives)).
  destruct (Z.gtb_spec p n) as [Hpn|Hpn];
    [|destruct (Z.gtb_spec n p) as [Hnp|Hnp]].
  - destruct (@fallback_score_table (p - n)) as [H1 [H2 H3]]; [lia|].
    cbn [score label]. split; [exact H1|]. split.
    + intros H. apply H2. lia.
    + split; [intros E; now destruct (H3 E) | discriminate].
  - destruct (@fallback_score_table (n - p)) as [H1 [H2 H3]]; [lia|].
    cbn [score label]. split; [exact H1|]. split.
    + intros H. apply H2. lia.
    + split; [intros E; now destruct (H3 E) | discriminate].
  - cbn [score label]. split; [now left|]. split; [lia|].
    split; reflexivity.
Qed.

(** X10: on the lexicon path, when the analyzer's dictionary has no
    compound entry for the trimmed text, the compound score counts as
    0.0: the answer is NEUTRAL with score 0.0. *)
Theorem lexicon_missing_compound (a : SentimentIntensityAnalyzer)
    (payload : SentimentIn) :
  strip (text payload) <> [] ->
  absent (py "compound") (polarity_scores a (strip (text payload))) ->
  analyze_sentiment ul (Some a) payload
  = {| label := NEUTRAL; score := 0.0 |}.
Proof.
  intros Hne Habs. rewrite (analyze_sentiment_lexicon ul a payload Hne).
  cbv zeta. rewrite dict_get_absent by exact Habs.
  vm_compute. reflexivity.
Qed.

End SentimentExtras.

(* ================================================================= *)
(** ** More on the vibe note generator *)

Lemma any_mentions (keys : list str) (m : str) :
  any (fun k => str_in k m) keys = true <-> mentions keys m.
Proof.
  unfold any, mentions. rewrite existsb_exists.
  split; intros [k [Hin Hk]]; exists k; split; auto;
    now apply str_in_Substring.
Qed.

Lemma mood_phrase_priority (m : str) : mood_priority m (mood_phrase m).
Proof.
  unfold mood_priority, mood_phrase.
  pose proof (any_mentions happy_keys m) as Hh.
  pose proof (any_mentions sad_keys m) as Hs.
  pose proof (any_mentions angry_keys m) as Ha.
  destruct (any _ happy_keys), (any _ sad_keys), (any _ angry_keys);
    repeat split; intros; first [reflexivity | exfalso; intuition congruence].
Qed.

Section VibeExtras.

Variable ul : UnicodeLower.

(** X11: the mood phrase is chosen on the trimmed, lower-cased mood in
    the order happy words, sad words, angry words, default, the first
    table with a keyword in the mood winning; it is the second half of
    the note. *)
Theorem vibe_note_mood_priority (payload : VibeIn) :
  exists mp : str,
    mood_priority (lower ul (strip (mood payload))) mp /\
    vibe_note ul payload =
      py "Today, "
      ++ weather_phrase (lower ul (or_empty (weather_main payload)))
                        (lower ul (or_empty (weather_desc payload)))
      ++ py "; " ++ mp ++ py ".".
Proof.
  exists (mood_phrase (lower ul (strip (mood payload)))).
  split; [apply mood_phrase_priority | reflexivity].
Qed.

(** X12: white space around the mood changes nothing. *)
Theorem vibe_note_ignores_mood_padding
    (l m r : str) (wm wd : option str) :
  forallb is_space l = true -> forallb is_space r = true ->
  vibe_note ul {| mood := l ++ m ++ r; weather_main := wm;
                  weather_desc := wd |}
  = vibe_note ul {| mood := m; weather_main := wm; weather_desc := wd |}.
Proof.
  intros Hl Hr. unfold vibe_note. cbn [mood weather_main weather_desc].
  now rewrite (strip_padding l m r Hl Hr).
Qed.

(** X13: the weather description matters only through whether it has
    "overcast" in it (after lower-casing): two requests that agree on
    that, and on mood and weather_main, get the same note. *)
Theorem vibe_note_desc_only_overcast
    (m : str) (wm wd1 wd2 : option str) :
  (Substring (py "overcast") (lower ul (or_empty wd1)) <->
   Substring (py "overcast") (lower ul (or_empty wd2))) ->
  vibe_note ul {| mood := m; weather_main := wm; weather_desc := wd1 |}
  = vibe_note ul {| mood := m; weather_main := wm; weather_desc := wd2 |}.
Proof.
  intros H. rewrite <- !str_in_Substring in H.
  unfold vibe_note, weather_phrase. cbn [mood weather_main weather_desc].
  assert (E : str_in (py "overcast") (lower ul (or_empty wd1))
              = str_in (py "overcast") (lower ul (or_empty wd2))).
  { destruct (str_in (py "overcast") (lower ul (or_empty wd1))),
             (str_in (py "overcast") (lower ul (or_empty wd2)));
      intuition congruence. }
  cbv zeta. now rewrite E.
Qed.

(** X14: for ASCII inputs the note does not depend on the case of the
    letters of mood, weather_main and weather_desc. *)
Theorem vibe_note_ignores_case (v1 v2 : VibeIn) :
  same_letters (mood v1) (mood v2) ->
  same_letters (or_empty (weather_main v1)) (or_empty (weather_main v2)) ->
  same_letters (or_empty (weather_desc v1)) (or_empty (weather_desc v2)) ->
  vibe_note ul v1 = vibe_note ul v2.
Proof.
  intros Hm Hw Hd. unfold vibe_note. cbv zeta.
  now rewrite (lower_strip_same_letters ul Hm),
              (lower_same_letters ul Hw), (lower_same_letters ul Hd).
Qed.

End VibeExtras.

(* ================================================================= *)
(** ** More on the diagnostics report *)

Lemma firstn_length_le {A} (k : nat) (l : list A) :
  (List.length (firstn k l) <= k)%nat.
Proof. rewrite length_firstn. lia. Qed.

Section DiagnosticsExtras.

Import Diagnostics.

Variable import_db : outcome exn (option Database).

Ltac run_step :=
  cbv beta iota zeta
      delta [try_except bind lift modify ret raise get_state fst].

Ltac run_all :=
  unfold test_database, probe_database, check_environment, listing_outcome,
         probes_raise_Exception;
  destruct import_db as [[db|]|[m|m|m]]; run_step;
  [ destruct (name db) as [|v|[m|m|m]]; run_step;
    destruct (list_collection_names db) as [cs|[m'|m'|m']]; run_step | .. ];
  cbn [is_Exception]; intros Hcatch; try contradiction.

(** X15: when what the probes raise is an instance of [Exception], the
    report says "Connected" exactly when the import gave a handle and
    looking up its name did not raise, and "Not Connected" otherwise;
    its collections are the first ten names of a listing that
    succeeded, and empty in every other case. *)
Theorem test_database_connection (environ : Environ) :
  probes_raise_Exception import_db ->
  exists r : Report,
    test_database import_db environ = Return r /\
    connection_status r =
      match listing_outcome import_db with
      | Some _ => py "Connected"
      | None => py "Not Connected"
      end /\
    collections r =
      match listing_outcome import_db with
      | Some (Return names) => slice_to 10 names
      | _ => []
      end.
Proof.
  run_all; (eexists; split; [reflexivity|]; split; reflexivity).
Qed.

(** X16: when what the probes raise is an instance of [Exception], the
    database status line of the report is at most 78 characters long,
    however long the text of the exception it reports. *)
Theorem test_database_status_bounded (environ : Environ) :
  probes_raise_Exception import_db ->
  exists r : Report,
    test_database import_db environ = Return r /\
    (List.length (database r) <= 78)%nat.
Proof.
  run_all;
    (eexists; split; [reflexivity|];
     cbn [database set_database set_database_url set_database_name
          set_connection_status set_collections initial_response exn_str];
     rewrite ?length_app;
     first [ vm_compute; lia
           | match goal with
             | |- context [slice_to 50 ?x] =>
                 pose proof (firstn_length_le 50 x) as Hlen;
                 unfold slice_to;
                 change (List.length Diagnostics.warn_mark) with 5%nat;
                 change (List.length Diagnostics.no_mark) with 2%nat;
                 change (List.length (py "  Connected but Error: "))
                   with 23%nat;
                 change (List.length (py " Error: ")) with 8%nat;
                 lia
             end ]).
Qed.

(** X17: for one and the same outcome of the database probes, the
    result depends on the environment that [test_database] itself reads
    only through whether DATABASE_URL and DATABASE_NAME have a non-empty
    value: two environments that agree on that give the same result.
    (What the probes make of the environment is part of their
    outcome.) *)
Theorem test_database_hides_environment (env1 env2 : Environ) :
  truthy (env1 (py "DATABASE_URL")) = truthy (env2 (py "DATABASE_URL")) ->
  truthy (env1 (py "DATABASE_NAME")) = truthy (env2 (py "DATABASE_NAME")) ->
  test_database import_db env1 = test_database import_db env2.
Proof.
  intros Hu Hn.
  unfold test_database, check_environment. rewrite Hu, Hn. reflexivity.
Qed.

End DiagnosticsExtras.

(* ================================================================= *)
(** ** Concrete runs, continued *)

Lemma get_weather_sends_one_request_witness :
  resolve_key key_environ (Some []) = Some (py "s3cret") /\
  resolve_key key_environ (Some (py "mine")) = Some (py "mine") /\
  py "s3cret" <> [] /\ py "mine" <> [] /\
  snd (Weather.get_weather key_environ dead_network (py "Paris") (Some []) [])
  = [weather_request (py "Paris") (py "s3cret")] /\
  snd (Weather.get_weather key_environ paris_network (py "Paris")
         (Some (py "mine")) [])
  = [weather_request (py "Paris") (py "mine")].
Proof.
  assert (H1 : resolve_key key_environ (Some []) = Some (py "s3cret"))
    by reflexivity.
  assert (H2 : resolve_key key_environ (Some (py "mine")) = Some (py "mine"))
    by reflexivity.
  assert (N1 : py "s3cret" <> []) by (vm_compute; discriminate).
  assert (N2 : py "mine" <> []) by (vm_compute; discriminate).
  repeat (split; [assumption|]).
  split.
  - exact (@get_weather_sends_one_request key_environ dead_network
             (py "Paris") (py "s3cret") (Some []) [] H1 N1).
  - exact (@get_weather_sends_one_request key_environ paris_network
             (py "Paris") (py "mine") (Some (py "mine")) [] H2 N2).
Defined.

Lemma get_weather_provider_error_witness :
  let r := {| Weather.status_code := 401;
              Weather.text := py "Invalid API key";
              Weather.json :=
                Return (Weather.JDict [ (py "cod", Weather.JInt 401) ]) |} in
  resolve_key empty_environ (Some (py "mine")) = Some (py "mine") /\
  py "mine" <> [] /\
  refusing_network (weather_request (py "Paris") (py "mine")) = Return r /\
  Weather.status_code r <> 200%Z /\
  fst (Weather.get_weather empty_environ refusing_network (py "Paris")
         (Some (py "mine")) [])
  = Raise (Weather.HTTPException 401 (py "Invalid API key")).
Proof.
  intros r.
  assert (H1 : resolve_key empty_environ (Some (py "mine")) = Some (py "mine"))
    by reflexivity.
  assert (N1 : py "mine" <> []) by (vm_compute; discriminate).
  assert (H2 : refusing_network (weather_request (py "Paris") (py "mine"))
               = Return r) by reflexivity.
  assert (H3 : Weather.status_code r <> 200%Z) by (vm_compute; discriminate).
  repeat (split; [assumption|]).
  exact (@get_weather_provider_error empty_environ refusing_network
           (py "Paris") (py "mine") (Some (py "mine")) [] H1 N1 r H2 H3).
Defined.

Lemma get_weather_wraps_exceptions_witness :
  resolve_key empty_environ (Some (py "mine")) = Some (py "mine") /\
  py "mine" <> [] /\
  dead_network (weather_request (py "Paris") (py "mine"))
  = Raise (Weather.Exception (py "Read timed out.")) /\
  fst (Weather.get_weather empty_environ dead_network (py "Paris")
         (Some (py "mine")) [])
  = Raise (Weather.HTTPException 500 (py "Read timed out.")).
Proof.
  assert (H1 : resolve_key empty_environ (Some (py "mine")) = Some (py "mine"))
    by reflexivity.
  assert (N1 : py "mine" <> []) by (vm_compute; discriminate).
  assert (H2 : dead_network (weather_request (py "Paris") (py "mine"))
               = Raise (Weather.Exception (py "Read timed out.")))
    by reflexivity.
  repeat (split; [assumption|]).
  exact (@get_weather_wraps_exceptions empty_environ dead_network
           (py "Paris") (py "mine") (Some (py "mine")) [] H1 N1
           (py "Read timed out.") (or_introl H2)).
Defined.

Lemma get_weather_body_not_object_witness :
  let r := {| Weather.status_code := 200; Weather.text := py "[]";
              Weather.json := Return (Weather.JList []) |} in
  resolve_key empty_environ (Some (py "mine")) = Some (py "mine") /\
  py "mine" <> [] /\
  list_network (weather_request (py "Paris") (py "mine")) = Return r /\
  Weather.status_code r = 200%Z /\
  Weather.json r = Return (Weather.JList []) /\
  (forall d, Weather.JList [] <> Weather.JDict d) /\
  fst (Weather.get_weather empty_environ list_network (py "Paris")
         (Some (py "mine")) [])
  = Raise (Weather.HTTPException 500
             (py "'list' object has no attribute 'get'")).
Proof.
  intros r.
  assert (H1 : resolve_key empty_environ (Some (py "mine")) = Some (py "mine"))
    by reflexivity.
  assert (N1 : py "mine" <> []) by (vm_compute; discriminate).
  assert (H2 : list_network (weather_request (py "Paris") (py "mine"))
               = Return r) by reflexivity.
  assert (H3 : Weather.status_code r = 200%Z) by reflexivity.
  assert (H4 : Weather.json r = Return (Weather.JList [])) by reflexivity.
  assert (H5 : forall d, Weather.JList [] <> Weather.JDict d)
    by (intros d; discriminate).
  repeat (split; [assumption|]).
  exact (@get_weather_body_not_object empty_environ list_network
           (py "Paris") (py "mine") (Some (py "mine")) [] H1 N1 r
           (Weather.JList []) H2 H3 H4 H5).
Defined.

Lemma get_weather_normalizes_witness :
  resolve_key key_environ None = Some (py "s3cret") /\
  py "s3cret" <> [] /\
  fst (Weather.get_weather key_environ paris_network (py "paris") None [])
  = Return {| Weather.city := Weather.JStr (py "Paris");
              Weather.country := Weather.JStr (py "FR");
              Weather.temp := Weather.JFloat 18.5;
              Weather.feels_like := Weather.JInt 18;
              Weather.humidity := Weather.JNone;
              Weather.wind := Weather.JNone;
              Weather.weather_main := Weather.JStr (py "Clouds");
              Weather.weather_desc := Weather.JStr (py "overcast clouds");
              Weather.icon := Weather.JStr (py "04d") |}.
Proof.
  assert (H1 : resolve_key key_environ None = Some (py "s3cret"))
    by reflexivity.
  assert (N1 : py "s3cret" <> []) by (vm_compute; discriminate).
  repeat (split; [assumption|]).
  exact (@get_weather_normalizes key_environ paris_network (py "paris")
           (py "s3cret") None [] H1 N1 _ _ _ _ _ _ _
           eq_refl eq_refl eq_refl eq_refl eq_refl eq_refl eq_refl).
Defined.

Lemma analyze_sentiment_ignores_padding_witness :
  let l := [0x20; 0x09]%N in
  let r := [0x0A; 0x3000]%N in
  forallb is_space l = true /\ forallb is_space r = true /\
  analyze_sentiment ascii_only (Some glad_analyzer)
    {| text := l ++ py "good day" ++ r |}
  = analyze_sentiment ascii_only (Some glad_analyzer)
      {| text := py "good day" |}.
Proof.
  intros l r.
  assert (Hl : forallb is_space l = true) by reflexivity.
  assert (Hr : forallb is_space r = true) by reflexivity.
  repeat (split; [assumption|]).
  exact (@analyze_sentiment_ignores_padding ascii_only (Some glad_analyzer)
           l (py "good day") r Hl Hr).
Defined.

Lemma fallback_ignores_case_witness :
  same_letters (py "So HAPPY, not Sad") (py "so happy, NOT sad") /\
  analyze_sentiment ascii_only None {| text := py "So HAPPY, not Sad" |}
  = analyze_sentiment ascii_only None {| text := py "so happy, NOT sad" |}.
Proof.
  assert (H : same_letters (py "So HAPPY, not Sad") (py "so happy, NOT sad"))
    by (repeat split; reflexivity).
  split; [exact H|].
  exact (@fallback_ignores_case ascii_only _ _ H).
Defined.

Lemma fallback_score_values_witness :
  let payload :=
    {| text := py "happy, great, awesome: love it, all good :)" |} in
  strip (text payload) <> [] /\
  keyword_count (lower ascii_only (strip (text payload))) positives 6 /\
  keyword_count (lower ascii_only (strip (text payload))) negatives 0 /\
  let r := analyze_sentiment ascii_only None payload in
  In (score r) fallback_scores /\
  ((4 <= Z.abs (6 - 0))%Z -> score r = 1.0) /\
  (score r = 0.5 <-> label r = NEUTRAL).
Proof.
  intros payload.
  assert (H : strip (text payload) <> []) by (vm_compute; discriminate).
  pose proof (keyword_count_sum_bool
                (lower ascii_only (strip (text payload))) positives) as Hp.
  pose proof (keyword_count_sum_bool
                (lower ascii_only (strip (text payload))) negatives) as Hn.
  vm_compute sum_bool in Hp, Hn.
  repeat (split; [assumption|]).
  exact (@fallback_score_values ascii_only payload 6 0 H Hp Hn).
Defined.

Lemma lexicon_missing_compound_witness :
  let payload := {| text := py "fine" |} in
  strip (text payload) <> [] /\
  absent (py "compound")
         (polarity_scores silent_analyzer (strip (text payload))) /\
  analyze_sentiment ascii_only (Some silent_analyzer) payload
  = {| label := NEUTRAL; score := 0.0 |}.
Proof.
  intros payload.
  assert (H : strip (text payload) <> []) by (vm_compute; discriminate).
  assert (Ha : absent (py "compound")
                 (polarity_scores silent_analyzer (strip (text payload))))
    by (intros v Hin; exact Hin).
  repeat (split; [assumption|]).
  exact (@lexicon_missing_compound ascii_only silent_analyzer payload H Ha).
Defined.

Lemma vibe_note_mood_priority_witness :
  let payload := {| mood := py " Sad but HAPPY "; weather_main := None;
                    weather_desc := None |} in
  mentions happy_keys (lower ascii_only (strip (mood payload))) /\
  exists mp : str,
    mp = happy_phrase /\
    vibe_note ascii_only payload =
      py "Today, "
      ++ weather_phrase
           (lower ascii_only (or_empty (weather_main payload)))
           (lower ascii_only (or_empty (weather_desc payload)))
      ++ py "; " ++ mp ++ py ".".
Proof.
  intros payload.
  assert (H : mentions happy_keys (lower ascii_only (strip (mood payload)))).
  { exists (py "happy"). split; [now left|].
    apply str_in_Substring. reflexivity. }
  split; [exact H|].
  destruct (vibe_note_mood_priority ascii_only payload) as [mp [Hprio Hnote]].
  exists mp. split; [|exact Hnote].
  exact (proj1 Hprio H).
Defined.

Lemma vibe_note_ignores_mood_padding_witness :
  let l := [0x20; 0x20]%N in
  let r := [0x0D; 0x0A]%N in
  forallb is_space l = true /\ forallb is_space r = true /\
  vibe_note ascii_only {| mood := l ++ py "tired" ++ r;
                          weather_main := Some (py "Snow");
                          weather_desc := None |}
  = vibe_note ascii_only {| mood := py "tired";
                            weather_main := Some (py "Snow");
                            weather_desc := None |}.
Proof.
  intros l r.
  assert (Hl : forallb is_space l = true) by reflexivity.
  assert (Hr : forallb is_space r = true) by reflexivity.
  repeat (split; [assumption|]).
  exact (@vibe_note_ignores_mood_padding ascii_only l (py "tired") r
           (Some (py "Snow")) None Hl Hr).
Defined.

Lemma vibe_note_desc_only_overcast_witness :
  (Substring (py "overcast")
     (lower ascii_only (or_empty (Some (py "Overcast clouds")))) <->
   Substring (py "overcast")
     (lower ascii_only (or_empty (Some (py "dark, overcast"))))) /\
  vibe_note ascii_only {| mood := py "calm"; weather_main := Some (py "Haze");
                          weather_desc := Some (py "Overcast clouds") |}
  = vibe_note ascii_only {| mood := py "calm";
                            weather_main := Some (py "Haze");
                            weather_desc := Some (py "dark, overcast") |}.
Proof.
  assert (H : Substring (py "overcast")
                (lower ascii_only (or_empty (Some (py "Overcast clouds")))) <->
              Substring (py "overcast")
                (lower ascii_only (or_empty (Some (py "dark, overcast"))))).
  { split; intros _; apply str_in_Substring; reflexivity. }
  split; [exact H|].
  exact (@vibe_note_desc_only_overcast ascii_only (py "calm")
           (Some (py "Haze")) _ _ H).
Defined.

Lemma vibe_note_ignores_case_witness :
  let v1 := {| mood := py "ANGRY"; weather_main := Some (py "Thunderstorm");
               weather_desc := None |} in
  let v2 := {| mood := py "angry"; weather_main := Some (py "THUNDERSTORM");
               weather_desc := Some [] |} in
  same_letters (mood v1) (mood v2) /\
  same_letters (or_empty (weather_main v1)) (or_empty (weather_main v2)) /\
  same_letters (or_empty (weather_desc v1)) (or_empty (weather_desc v2)) /\
  vibe_note ascii_only v1 = vibe_note ascii_only v2.
Proof.
  intros v1 v2.
  assert (Hm : same_letters (mood v1) (mood v2))
    by (repeat split; reflexivity).
  assert (Hw : same_letters (or_empty (weather_main v1))
                            (or_empty (weather_main v2)))
    by (repeat split; reflexivity).
  assert (Hd : same_letters (or_empty (weather_desc v1))
                            (or_empty (weather_desc v2)))
    by (repeat split; reflexivity).
  repeat (split; [assumption|]).
  exact (@vibe_note_ignores_case ascii_only v1 v2 Hm Hw Hd).
Defined.

Lemma test_database_hides_environment_witness :
  let other : Environ :=
    fun k => if str_eqb k (py "DATABASE_NAME")
             then Some (py "mongodb://user:pw@host/db") else None in
  truthy (database_environ (py "DATABASE_URL"))
    = truthy (other (py "DATABASE_URL")) /\
  truthy (database_environ (py "DATABASE_NAME"))
    = truthy (other (py "DATABASE_NAME")) /\
  Diagnostics.test_database (Return (Some crowded_database)) database_environ
  = Diagnostics.test_database (Return (Some crowded_database)) other.
Proof.
  intros other.
  assert (Hu : truthy (database_environ (py "DATABASE_URL"))
               = truthy (other (py "DATABASE_URL"))) by reflexivity.
  assert (Hn : truthy (database_environ (py "DATABASE_NAME"))
               = truthy (other (py "DATABASE_NAME"))) by reflexivity.
  repeat (split; [assumption|]).
  exact (@test_database_hides_environment (Return (Some crowded_database))
           database_environ other Hu Hn).
Defined.

(** Twelve collections are cut to ten; a handle without a name still
    counts as connected. *)
Example crowded_report :
  exists r,
    Diagnostics.test_database (Return (Some crowded_database)) empty_environ
    = Return r /\
    Diagnostics.collections r = map (fun c => [c]) (py "abcdefghij") /\
    Diagnostics.connection_status r = py "Connected" /\
    Diagnostics.database r = Diagnostics.ok_mark ++ py " Connected & Working".
Proof. eexists. split; [reflexivity|]. vm_compute. repeat split. Qed.

(** X18: a non-empty [api_key] parameter takes precedence: the process
    environment is not consulted, so the call behaves the same under
    any two environments. *)
Theorem get_weather_parameter_wins
    (env1 env2 : Environ)
    (network : Weather.Request -> outcome Weather.exn Weather.Response)
    (city : str) (api_key : option str) (sent : list Weather.Request) :
  truthy api_key = true ->
  Weather.get_weather env1 network city api_key sent
  = Weather.get_weather env2 network city api_key sent.
Proof.
  intros H. unfold Weather.get_weather. rewrite H. reflexivity.
Qed.

Lemma get_weather_parameter_wins_witness :
  truthy (Some (py "mine")) = true /\
  Weather.get_weather key_environ paris_network (py "Oslo")
    (Some (py "mine")) []
  = Weather.get_weather empty_environ paris_network (py "Oslo")
      (Some (py "mine")) [].
Proof.
  split; [reflexivity|].
  exact (@get_weather_parameter_wins key_environ empty_environ paris_network
           (py "Oslo") (Some (py "mine")) [] eq_refl).
Defined.

(* ================================================================= *)
(** ** Keywords that occur more than once, and the stored emoji *)

(** C1, as stated, fails: in "happy happy" the positive keywords occur
    twice and no negative keyword occurs, so a count of occurrences
    would give the score min(1.0, 0.6 + 0.1*2) = 0.8; the code counts
    the keyword "happy" once and returns 0.7. *)
Lemma fallback_counts_each_keyword_once :
  let s := lower ascii_only (strip (py "happy happy")) in
  let r := analyze_sentiment ascii_only None {| text := py "happy happy" |} in
  occurrence_count positives s = 2%Z /\
  occurrence_count negatives s = 0%Z /\
  py_min 1.0 (0.6 + 0.1 * float_of_int (2 - 0)) = 0.8 /\
  label r = POSITIVE /\ score r = 0.7 /\
  score r <> py_min 1.0 (0.6 + 0.1 * float_of_int (2 - 0)).
Proof.
  vm_compute. repeat split.
  intros E. apply (f_equal (fun x => PrimFloat.eqb x 0.7)) in E.
  vm_compute in E. discriminate.
Qed.

(** C7, as stated, fails: an import of the database module that ends
    the process, or a listing interrupted from the keyboard, raises an
    exception outside class [Exception], which neither [except] clause
    catches: it leaves [test_database]. *)
Lemma test_database_lets_system_exit_through :
  Diagnostics.test_database exiting_import empty_environ
  = Raise (Diagnostics.BaseException (py "1")) /\
  Diagnostics.test_database (Return (Some interrupted_database))
    empty_environ
  = Raise (Diagnostics.BaseException []).
Proof. split; reflexivity. Qed.

Lemma ascii_lower_is_ascii (x : codepoint) :
  is_ascii x = true -> is_ascii (ascii_lower x) = true.
Proof.
  unfold is_ascii, ascii_lower. intros H. apply N.ltb_lt in H.
  destruct ((0x41 <=? x) && (x <=? 0x5A))%N eqn:E; apply N.ltb_lt; [|lia].
  apply andb_true_iff in E as [_ E]. apply N.leb_le in E. lia.
Qed.

(** A non-ASCII code point that the table never yields does not occur
    in a lower-cased text. *)
Lemma lower_from_never_yields (ul : UnicodeLower) (c : codepoint) :
  never_yields ul c -> is_ascii c = false ->
  forall s before, ~ In c (lower_from ul before s).
Proof.
  intros Hul Hc s. induction s as [|x s IH]; intros before; simpl; [tauto|].
  intros Hin. apply in_app_or in Hin as [Hin|Hin]; [|exact (IH _ Hin)].
  destruct (is_ascii x) eqn:Ex.
  - destruct Hin as [<-|[]].
    rewrite (ascii_lower_is_ascii x Ex) in Hc. discriminate.
  - exact (Hul _ _ _ Hin).
Qed.

Lemma Substring_In (w s : str) (c : codepoint) :
  Substring w s -> In c w -> In c s.
Proof.
  intros [a [b ->]] Hc. apply in_or_app. right. apply in_or_app. now left.
Qed.

(** Counting over a table is counting over its ASCII keywords when the
    other keywords do not occur. *)
Lemma keyword_count_ascii_keys (s : str) (ws : list str) (k : Z) :
  (forall w, In w (emoji_keys ws) -> ~ Substring w s) ->
  keyword_count s ws k -> keyword_count s (ascii_keys ws) k.
Proof.
  intros Hemoji H. induction H as [|w ws k Hw _ IH|w ws k Hw _ IH];
    unfold ascii_keys, emoji_keys in *; cbn [filter] in *.
  - constructor.
  - destruct (forallb is_ascii w) eqn:Ew; cbn [negb] in Hemoji.
    + apply count_hit; [exact Hw | exact (IH Hemoji)].
    + destruct (Hemoji w (or_introl eq_refl) Hw).
  - destruct (forallb is_ascii w) eqn:Ew; cbn [negb] in Hemoji.
    + apply count_miss; [exact Hw | exact (IH Hemoji)].
    + apply IH. intros w' Hw'. apply Hemoji. now right.
Qed.

Lemma latin_lower_never_capital_y : never_yields latin_lower 0x178%N.
Proof.
  intros before x after. unfold latin_lower.
  destruct (x =? 0x178)%N eqn:E1; [intros [H|[]]; discriminate|].
  destruct (x =? 0x160)%N eqn:E2; [intros [H|[]]; discriminate|].
  destruct (x =? 0x17D)%N eqn:E3; [intros [H|[]]; discriminate|].
  intros [H|[]]. subst x. discriminate.
Qed.

Section EmojiKeywords.

Variable ul : UnicodeLower.

(** The lower-case table never yields the capital letter U+0178, as is
    the case for Unicode lower-casing. *)
Hypothesis Hul : never_yields ul 0x178%N.

(** X19: the emoji keywords of all five tables are stored with the
    capital letter U+0178 in them, and the text is lower-cased before
    it is searched, so no text ever matches an emoji keyword; on the
    fallback path the two counts are the counts over the six ASCII
    keywords of each table. *)
Theorem emoji_keywords_never_match (s : str) :
  (forall w,
     In w (emoji_keys positives ++ emoji_keys negatives
           ++ emoji_keys happy_keys ++ emoji_keys sad_keys
           ++ emoji_keys angry_keys) ->
     ~ Substring w (lower ul s)) /\
  (forall p, keyword_count (lower ul s) positives p ->
             keyword_count (lower ul s) (ascii_keys positives) p) /\
  (forall n, keyword_count (lower ul s) negatives n ->
             keyword_count (lower ul s) (ascii_keys negatives) n) /\
  List.length (ascii_keys positives) = 6%nat /\
  List.length (ascii_keys negatives) = 6%nat.
Proof.
  assert (Hall : forall w,
            In w (emoji_keys positives ++ emoji_keys negatives
                  ++ emoji_keys happy_keys ++ emoji_keys sad_keys
                  ++ emoji_keys angry_keys) ->
            ~ Substring w (lower ul s)).
  { intros w Hw Hsub.
    assert (Hy : In 0x178%N w).
    { assert (Hb : forallb (existsb (N.eqb 0x178))
                     (emoji_keys positives ++ emoji_keys negatives
                      ++ emoji_keys happy_keys ++ emoji_keys sad_keys
                      ++ emoji_keys angry_keys) = true)
        by (vm_compute; reflexivity).
      rewrite forallb_forall in Hb. specialize (Hb w Hw).
      apply existsb_exists in Hb as [c [Hc Ec]].
      apply N.eqb_eq in Ec. now subst c. }
    apply (@lower_from_never_yields ul 0x178%N Hul eq_refl s []).
    exact (@Substring_In w _ _ Hsub Hy). }
  split; [exact Hall|].
  split; [|split; [|split; reflexivity]].
  - intros p. apply keyword_count_ascii_keys.
    intros w Hw. apply Hall. apply in_or_app. now left.
  - intros n. apply keyword_count_ascii_keys.
    intros w Hw. apply Hall. apply in_or_app. right.
    apply in_or_app. now left.
Qed.

End EmojiKeywords.

Lemma emoji_keywords_never_match_witness :
  let smile : str := [0xF0; 0x178; 0x2DC; 0x160]%N in
  never_yields latin_lower 0x178%N /\
  In smile positives /\
  ~ Substring smile (lower latin_lower smile) /\
  analyze_sentiment latin_lower None {| text := smile |}
  = {| label := NEUTRAL; score := 0.5 |}.
Proof.
  intros smile.
  split; [exact latin_lower_never_capital_y|].
  split; [vm_compute; tauto|].
  split; [|vm_compute; reflexivity].
  apply (proj1 (@emoji_keywords_never_match latin_lower
                  latin_lower_never_capital_y smile)).
  vm_compute. tauto.
Defined.

Lemma test_database_never_raises_witness :
  probes_raise_Exception (Return (Some broken_database)) /\
  exists r : Diagnostics.Report,
    Diagnostics.test_database (Return (Some broken_database)) database_environ
    = Return r /\
    Diagnostics.backend r = Diagnostics.ok_mark ++ py " Running" /\
    Diagnostics.database r
    = expected_database (Return (Some broken_database)) /\
    (List.length (Diagnostics.collections r) <= 10)%nat.
Proof.
  assert (H : probes_raise_Exception (Return (Some broken_database)))
    by exact I.
  split; [exact H|].
  exact (proj1 (@test_database_never_raises (Return (Some broken_database))
                  database_environ) H).
Defined.

Lemma environment_fields_overwrite_probe_witness :
  probes_raise_Exception (Return (Some crowded_database)) /\
  exists r : Diagnostics.Report,
    Diagnostics.test_database (Return (Some crowded_database))
      database_environ = Return r /\
    Diagnostics.database_url r = Some (Diagnostics.no_mark ++ py " Not Set") /\
    Diagnostics.database_name r = Some (Diagnostics.ok_mark ++ py " Set").
Proof.
  assert (H : probes_raise_Exception (Return (Some crowded_database)))
    by exact I.
  split; [exact H|].
  exact (@environment_fields_overwrite_probe (Return (Some crowded_database))
           database_environ H).
Defined.

Lemma test_database_connection_witness :
  probes_raise_Exception (Return (Some crowded_database)) /\
  exists r : Diagnostics.Report,
    Diagnostics.test_database (Return (Some crowded_database))
      empty_environ = Return r /\
    Diagnostics.connection_status r = py "Connected" /\
    Diagnostics.collections r = map (fun c => [c]) (py "abcdefghij").
Proof.
  assert (H : probes_raise_Exception (Return (Some crowded_database)))
    by exact I.
  split; [exact H|].
  exact (@test_database_connection (Return (Some crowded_database))
           empty_environ H).
Defined.

Lemma test_database_status_bounded_witness :
  probes_raise_Exception (Return (Some broken_database)) /\
  exists r : Diagnostics.Report,
    Diagnostics.test_database (Return (Some broken_database))
      empty_environ = Return r /\
    (List.length (Diagnostics.database r) <= 78)%nat.
Proof.
  assert (H : probes_raise_Exception (Return (Some broken_database)))
    by exact I.
  split; [exact H|].
  exact (@test_database_status_bounded (Return (Some broken_database))
           empty_environ H).
Defined.
